(** * YSI ODO RTU sensor driver: register codec and command protocol

    A shallow embedding of [ODO_sensor_lib/core.py] (class
    [YSIOdoRtuSensor]) and of the parts of [pymodbus.payload] the class
    calls ([BinaryPayloadDecoder], [BinaryPayloadBuilder]).

    - Register words, bytes and Python integers are [Z]; a Python [bytes]
      object is a [list Z] of values in [0, 255].
    - Python dictionaries are association lists in insertion order: the
      driver reads the baud and parity tables by position
      ([list(d.keys())[list(d.values()).index(code)]]).
    - The Modbus client is an oracle answering each call from the list of
      calls made before it; every call is appended to a log kept in the
      sensor state, so the number and shape of transport calls an
      operation issues can be read back.
    - Methods run in a state-and-exception monad.  A raised exception
      keeps the state reached so far, as in Python.
    - [print] calls are not modelled. *)

From Stdlib Require Import ZArith List String Bool Lia.
Import ListNotations.
Open Scope Z_scope.

(** ** Python values *)

(** The values that cross the driver's interface.  [PyFloat d] is the
    Python float whose IEEE binary64 pattern is [d]. *)
#[warnings="-register-all"]
Inductive pyval : Type :=
| PyNone
| PyBool (b : bool)
| PyInt (n : Z)
| PyFloat (d : Z)
| PyStr (s : string)
| PyBytes (b : list Z)
| PyDict (items : list (string * pyval)).

Definition bytes := list Z.
Definition dict := list (string * pyval).

(** [d[key]]: [None] stands for [KeyError]. *)
Fixpoint dict_get (key : string) (d : dict) : option pyval :=
  match d with
  | [] => None
  | (k, v) :: rest => if String.eqb key k then Some v else dict_get key rest
  end.

(** [d[key] = value]: an existing key keeps its position, a new one is
    appended. *)
Fixpoint dict_set (key : string) (value : pyval) (d : dict) : dict :=
  match d with
  | [] => [(key, value)]
  | (k, v) :: rest =>
      if String.eqb key k then (k, value) :: rest
      else (k, v) :: dict_set key value rest
  end.

(** [l[a:b]] for non-negative [a] and [b]. *)
Definition slice {A : Type} (l : list A) (a b : nat) : list A :=
  firstn (b - a) (skipn a l).

(** ** Exceptions and results *)

Inductive exn : Type :=
| ValueError (msg : string)
| KeyError (key : string)
| AssertionError (msg : string)
| ModbusException
| StructError
| OverflowError
| PlainException (msg : string).

Inductive result (A : Type) : Type :=
| Ok (a : A)
| Exc (e : exn).
Arguments Ok {A} a.
Arguments Exc {A} e.

(** ** struct and pymodbus.payload

    The driver decodes and encodes through pymodbus 3.x:
    [BinaryPayloadDecoder.fromRegisters] packs the registers with
    [struct.pack("!<n>H", ...)], every [decode_*] advances [_pointer] and
    unpacks the slice behind it, [decode_string] returns that slice as it
    is; [BinaryPayloadBuilder.add_*] appends [struct.pack] of the value,
    [build] cuts the joined payload into two-byte chunks and
    [to_registers] unpacks each chunk as one register. *)

Module Struct.

(** [struct.pack("!H", w)]; [None] is [struct.error]. *)
Definition pack_H (w : Z) : option bytes :=
  if (0 <=? w) && (w <=? 65535)
  then Some [Z.shiftr w 8; Z.land w 255]
  else None.

(** [struct.pack("!I", n)]. *)
Definition pack_I (n : Z) : option bytes :=
  if (0 <=? n) && (n <=? 4294967295)
  then Some [Z.shiftr n 24; Z.land (Z.shiftr n 16) 255;
             Z.land (Z.shiftr n 8) 255; Z.land n 255]
  else None.

(** The four big-endian bytes of a 32-bit pattern. *)
Definition bytes_of_u32 (n : Z) : bytes :=
  [Z.land (Z.shiftr n 24) 255; Z.land (Z.shiftr n 16) 255;
   Z.land (Z.shiftr n 8) 255; Z.land n 255].

(** [struct.pack("!{n}H", *registers)]. *)
Fixpoint pack_nH (registers : list Z) : option bytes :=
  match registers with
  | [] => Some []
  | w :: rest =>
      match pack_H w, pack_nH rest with
      | Some b, Some bs => Some (b ++ bs)
      | _, _ => None
      end
  end.

(** [struct.unpack(">B", handle)[0]]. *)
Definition unpack_B (handle : bytes) : option Z :=
  match handle with
  | [a] => Some a
  | _ => None
  end.

(** [struct.unpack(">H", handle)[0]]. *)
Definition unpack_H (handle : bytes) : option Z :=
  match handle with
  | [a; b] => Some (Z.lor (Z.shiftl a 8) b)
  | _ => None
  end.

(** [struct.unpack("!I", handle)[0]]. *)
Definition unpack_I (handle : bytes) : option Z :=
  match handle with
  | [a; b; c; d] =>
      Some (Z.lor (Z.lor (Z.lor (Z.shiftl a 24) (Z.shiftl b 16))
                         (Z.shiftl c 8)) d)
  | _ => None
  end.

(** The integer arguments [struct.pack] accepts for an integer format:
    [int] and [bool]. *)
Definition as_int (v : pyval) : option Z :=
  match v with
  | PyInt n => Some n
  | PyBool b => Some (if b then 1 else 0)
  | _ => None
  end.

End Struct.

(** What [struct.pack("!f", value)] raises when it raises: [OverflowError]
    for a float too large for binary32, [struct.error] for anything else
    (an argument that is not a number, an integer too large to
    convert). *)
Definition pack_failure (value : pyval) : exn :=
  match value with
  | PyFloat _ => OverflowError
  | _ => StructError
  end.

(** What the loop of [set_odo_cap_coefficients] raises on a value the
    builder refuses under [key]: [struct.error] from
    [add_16bit_uint] for ["KC"], the failure of [struct.pack("!f", ...)]
    for the other keys. *)
Definition refusal (key : string) (value : pyval) : exn :=
  if String.eqb key "KC" then StructError else pack_failure value.

(** [BinaryPayloadDecoder] with [byteorder=Endian.BIG] and
    [wordorder=Endian.BIG] (the default word order): [_unpack_words] is
    the identity. *)
Module Decoder.

Record t : Type := mk { payload : bytes; pointer : nat }.

(** A decoding step: the value and the advanced decoder, or
    [struct.error]. *)
Definition step (A : Type) : Type := t -> option (A * t).

Definition ret {A} (a : A) : step A := fun d => Some (a, d).
Definition bind {A B} (m : step A) (k : A -> step B) : step B :=
  fun d => match m d with
           | Some (a, d') => k a d'
           | None => None
           end.

(** [BinaryPayloadDecoder.fromRegisters(registers, byteorder=Endian.BIG)] *)
Definition fromRegisters (registers : list Z) : option t :=
  match Struct.pack_nH registers with
  | Some p => Some (mk p 0)
  | None => None
  end.

(** The slice [_payload[_pointer - size : _pointer]] after the pointer
    moved by [size]. *)
Definition take (size : nat) (d : t) : bytes * t :=
  let p := (pointer d + size)%nat in
  (slice (payload d) (p - size) p, mk (payload d) p).

Definition decode_8bit_uint : step Z :=
  fun d => let (handle, d') := take 1 d in
           option_map (fun v => (v, d')) (Struct.unpack_B handle).

Definition decode_16bit_uint : step Z :=
  fun d => let (handle, d') := take 2 d in
           option_map (fun v => (v, d')) (Struct.unpack_H handle).

Definition decode_32bit_uint : step Z :=
  fun d => let (handle, d') := take 4 d in
           option_map (fun v => (v, d')) (Struct.unpack_I handle).

(** [decode_32bit_float], up to the last conversion: the 32-bit
    pattern handed to [struct.unpack("!f", ...)]. *)
Definition decode_32bit_pattern : step Z := decode_32bit_uint.

(** [decode_string(size)]: the raw slice, whatever its length. *)
Definition decode_string (size : nat) : step bytes :=
  fun d => Some (take size d).

End Decoder.

(** ** The baud-rate and parity tables *)

Definition baud_rates : list (Z * Z) :=
  [(9600, 0x00); (19200, 0x01); (38400, 0x02); (57600, 0x03); (115200, 0x04)].

Definition parities : list (string * Z) :=
  [("none"%string, 0x00); ("odd"%string, 0x01); ("even"%string, 0x02)].

Definition baud_code (baud_rate : Z) : option Z :=
  option_map snd (find (fun kv => Z.eqb (fst kv) baud_rate) baud_rates).

Definition parity_code (parity : string) : option Z :=
  option_map snd (find (fun kv => String.eqb (fst kv) parity) parities).

(** [values.index(code)]: [None] is [ValueError]. *)
Fixpoint list_index (code : Z) (values : list Z) : option nat :=
  match values with
  | [] => None
  | v :: rest =>
      if Z.eqb v code then Some O else option_map S (list_index code rest)
  end.

(** [list(table.keys())[list(table.values()).index(code)]] *)
Definition label_of {K : Type} (table : list (K * Z)) (code : Z) : option K :=
  match list_index code (map snd table) with
  | Some i => nth_error (map fst table) i
  | None => None
  end.

(** ** The Modbus client *)

(** The [values] argument of [write_registers]: the two-byte chunks of
    [builder.build()] or the integers of [builder.to_registers()]. *)
Inductive reg_values : Type :=
| Chunks (chunks : list bytes)
| Words (words : list Z).

Definition reg_count (values : reg_values) : nat :=
  match values with
  | Chunks chunks => List.length chunks
  | Words words => List.length words
  end.

(** A call on [self.client]. *)
Inductive call : Type :=
| Connect
| Close
| ReadHoldingRegisters (address count slave : Z)
| ReadInputRegisters (address count slave : Z)
| WriteRegister (address value slave : Z)
| WriteRegisters (address : Z) (values : reg_values) (skip_encode : bool)
                 (slave : Z).

(** What a request returns: [isError()] and, for a read, [registers]. *)
Record response : Type := mkResponse { isError : bool; registers : list Z }.

(** The client and the device behind it.  Each answer may depend on the
    calls made so far; [None] is a raised [ModbusException]. *)
Record ModbusClient : Type := mkClient {
  client_connect : list call -> option bool;
  client_execute : list call -> call -> option response
}.

(** ** The sensor object *)

Record sensor : Type := mkSensor {
  client : ModbusClient;
  unit_id : Z;
  connected : bool;
  calls : list call   (* the calls made on [client], oldest first *)
}.

Definition log_call (c : call) (s : sensor) : sensor :=
  mkSensor (client s) (unit_id s) (connected s) (calls s ++ [c]).

Definition set_connected (b : bool) (s : sensor) : sensor :=
  mkSensor (client s) (unit_id s) b (calls s).

(** [YSIOdoRtuSensor.__init__] *)
Definition init (c : ModbusClient) (unit : Z) : sensor :=
  mkSensor c unit false [].

(** ** The method monad *)

Definition M (A : Type) : Type := sensor -> result A * sensor.

Definition ret {A} (a : A) : M A := fun s => (Ok a, s).
Definition raise {A} (e : exn) : M A := fun s => (Exc e, s).
Definition bind {A B} (m : M A) (k : A -> M B) : M B :=
  fun s => match m s with
           | (Ok a, s') => k a s'
           | (Exc e, s') => (Exc e, s')
           end.

Declare Scope py_scope.
Delimit Scope py_scope with py.
Notation "x <- m ;; k" := (bind m (fun x => k))
  (at level 61, m at next level, right associativity) : py_scope.
Notation "m ;;; k" := (bind m (fun _ => k))
  (at level 61, right associativity) : py_scope.
Open Scope py_scope.

(** [try: body except Exception: handler] *)
Definition try_except {A} (body : M A) (handler : M A) : M A :=
  fun s => match body s with
           | (Ok a, s') => (Ok a, s')
           | (Exc _, s') => handler s'
           end.

(** [try: body except ModbusException: handler] *)
Definition try_except_modbus {A} (body : M A) (handler : M A) : M A :=
  fun s => match body s with
           | (Ok a, s') => (Ok a, s')
           | (Exc ModbusException, s') => handler s'
           | (Exc e, s') => (Exc e, s')
           end.

(** The result of a decoding call: [None] raises the [struct.error] of
    [struct.unpack] (and of [struct.pack] on a register outside 16
    bits). *)
Definition struct_result {A} (o : option A) : M A :=
  match o with
  | Some a => ret a
  | None => raise StructError
  end.

(** The result of builder calls: [None] raises the exception of the call
    that failed. *)
Definition builder_result {A} (o : option A) (e : exn) : M A :=
  match o with
  | Some a => ret a
  | None => raise e
  end.

(** A request on [self.client]. *)
Definition request (c : call) : M response :=
  fun s => match client_execute (client s) (calls s) c with
           | Some r => (Ok r, log_call c s)
           | None => (Exc ModbusException, log_call c s)
           end.

Definition get_unit_id : M Z := fun s => (Ok (unit_id s), s).

(** A computation that touches neither the sensor nor the client. *)
Definition lift {A} (r : result A) : M A := fun s => (r, s).

(** [BinaryPayloadDecoder.fromRegisters(registers, ...)] followed by the
    decoding steps run on that decoder; [None] is [struct.error]. *)
Definition decode {A} (registers : list Z) (steps : Decoder.step A)
    : option A :=
  match Decoder.fromRegisters registers with
  | Some d => option_map fst (steps d)
  | None => None
  end.

(** [connect] *)
Definition connect : M bool :=
  fun s => match client_connect (client s) (calls s) with
           | Some b => (Ok b, set_connected b (log_call Connect s))
           | None => (Ok false, set_connected false (log_call Connect s))
           end.

(** [disconnect] *)
Definition disconnect : M unit :=
  fun s => (Ok tt, log_call Close s).

(** [BinaryPayloadBuilder] with [byteorder=Endian.BIG] and
    [wordorder=Endian.BIG]: [_pack_words] is [struct.pack("!" + fstring)].
    A builder is its [_payload], the list of packed values. *)
Module Builder.

Definition t : Type := list bytes.

Definition empty : t := [].

Definition add_16bit_uint (value : pyval) (b : t) : option t :=
  match Struct.as_int value with
  | Some n => option_map (fun p => b ++ [p]) (Struct.pack_H n)
  | None => None
  end.

Definition add_32bit_uint (value : pyval) (b : t) : option t :=
  match Struct.as_int value with
  | Some n => option_map (fun p => b ++ [p]) (Struct.pack_I n)
  | None => None
  end.

(** [pack_f value] is the binary32 pattern [struct.pack("!f", value)]
    writes, [None] when it raises. *)
Definition add_32bit_float (pack_f : pyval -> option Z) (value : pyval)
    (b : t) : option t :=
  option_map (fun bits => b ++ [Struct.bytes_of_u32 bits]) (pack_f value).

Definition encode (b : t) : bytes := List.concat b.

(** [buffer[i:i+2] for i in range(0, length, 2)] on the buffer padded
    with one NUL when its length is odd. *)
Fixpoint chunk2 (buffer : bytes) : list bytes :=
  match buffer with
  | a :: b :: rest => [a; b] :: chunk2 rest
  | [a] => [[a; 0]]
  | [] => []
  end.

Definition build (b : t) : list bytes := chunk2 (encode b).

(** [unpack("!H", chunk)[0]] on a chunk of [build], always two bytes. *)
Definition word_of (chunk : bytes) : Z :=
  match Struct.unpack_H chunk with
  | Some w => w
  | None => 0
  end.

Definition to_registers (b : t) : list Z := map word_of (build b).

End Builder.

(** ** Register layouts read as one block *)

Inductive kind : Type :=
| U16
| U32
| F32
| Str (size : nat).

(** One decoded entry: its key and the slice [registers[start:stop]] its
    decoder is built from. *)
Record field : Type := mkField {
  name : string;
  start : nat;
  stop : nat;
  decoded : kind
}.

(** [get_device_info] *)
Definition device_info_fields : list field :=
  [ mkField "product_id" 0 1 U16;
    mkField "model_id" 1 2 U16;
    mkField "submodel_id" 2 3 U16;
    mkField "firmware_major_revision" 3 4 U16;
    mkField "firmware_minor_revision" 4 5 U16;
    mkField "firmware_subminor_revision" 5 6 U16;
    mkField "hardware_major_revision" 6 7 U16;
    mkField "hardware_minor_revision" 7 8 U16;
    mkField "manufacturing_serial_number" 8 13 (Str 10);
    mkField "printed_circuit_board_serial_number" 13 17 (Str 8) ].

(** [get_data] *)
Definition data_fields : list field :=
  [ mkField "odo_saturation" 0 2 F32;
    mkField "odo_concentration" 2 4 F32;
    mkField "odo_local_barometer_compensated" 4 8 F32;
    mkField "temperature" 8 10 F32;
    mkField "ref_temperature" 10 12 F32;
    mkField "time_since_boot" 12 14 U32;
    mkField "conductivity" 14 16 F32;
    mkField "specific_conductivity" 16 18 F32;
    mkField "salinity" 18 20 F32;
    mkField "conductivity _nLF" 20 22 F32;
    mkField "total_dissolved_solids" 22 24 F32 ].

(** [get_odo_last_calibration_time_and_qc_score] and
    [get_conductivity_last_calibration_time_and_qc_score] *)
Definition calibration_fields : list field :=
  [ mkField "last_calibration_time" 0 2 U32;
    mkField "qc_score" 2 3 U16 ].

(** The keys [set_odo_cap_coefficients] iterates over. *)
Definition cap_coefficient_keys : list string :=
  [ "K1"; "K2"; "K3"; "K4"; "K5"; "K6"; "K7"; "KC";
    "Cap Replacement Time" ]%string.

(** ** The methods of [YSIOdoRtuSensor] *)

Section Driver.

(** The binary32 conversions of [struct], left open: [pack_f v] is the
    32-bit pattern of [struct.pack("!f", v)] ([None] when it raises),
    [unpack_f bits] the float [struct.unpack("!f", ...)] returns. *)
Variable pack_f : pyval -> option Z.
Variable unpack_f : Z -> pyval.

Definition decode_32bit_float : Decoder.step pyval :=
  Decoder.bind Decoder.decode_32bit_pattern
               (fun bits => Decoder.ret (unpack_f bits)).

Definition decode_field (k : kind) : Decoder.step pyval :=
  match k with
  | U16 => Decoder.bind Decoder.decode_16bit_uint
                        (fun n => Decoder.ret (PyInt n))
  | U32 => Decoder.bind Decoder.decode_32bit_uint
                        (fun n => Decoder.ret (PyInt n))
  | F32 => decode_32bit_float
  | Str size => Decoder.bind (Decoder.decode_string size)
                             (fun b => Decoder.ret (PyBytes b))
  end.

(** [data[name] = BinaryPayloadDecoder.fromRegisters(
      registers[start:stop], ...).decode_...()], field after field. *)
Fixpoint decode_fields (registers : list Z) (fields : list field)
    (data : dict) : option dict :=
  match fields with
  | [] => Some data
  | f :: rest =>
      match decode (slice registers (start f) (stop f))
                   (decode_field (decoded f)) with
      | Some v => decode_fields registers rest (dict_set (name f) v data)
      | None => None
      end
  end.

(** [if response.isError(): raise ValueError(msg)] *)
Definition check_value_error (r : response) (msg : string) : M unit :=
  if isError r then raise (ValueError msg) else ret tt.

(** [if result.isError(): raise Exception(msg)] *)
Definition check_exception (r : response) (msg : string) : M unit :=
  if isError r then raise (PlainException msg) else ret tt.

Definition get_baud_rate_and_parity : M pyval :=
  try_except
    (unit <- get_unit_id ;;
     response <- request (ReadHoldingRegisters 0x0001 1 unit) ;;
     check_value_error response
       "Error reading device information registers" ;;;
     codes <- struct_result (decode (registers response)
                (Decoder.bind Decoder.decode_8bit_uint (fun parity =>
                 Decoder.bind Decoder.decode_8bit_uint (fun baud_rate =>
                 Decoder.ret (parity, baud_rate))))) ;;
     match label_of parities (fst codes) with
     | None => raise (ValueError "is not in list")
     | Some parity =>
         let data := dict_set "parity" (PyStr parity) [] in
         match label_of baud_rates (snd codes) with
         | None => raise (ValueError "is not in list")
         | Some baud_rate =>
             ret (PyDict (dict_set "baud_rate" (PyInt baud_rate) data))
         end
     end)
    (ret PyNone).

(** The two table lookups stand for the membership test
    [baud_rate not in self.baud_rates or parity not in self.parities] and
    for the subscripts that follow it.  [write_result] is bound and not
    used. *)
Definition set_baud_rate_and_parity (baud_rate : Z) (parity : string)
    : M pyval :=
  match baud_code baud_rate, parity_code parity with
  | Some baud, Some par =>
      let combined_value := Z.lor (Z.shiftl par 8) baud in
      try_except_modbus
        (unit <- get_unit_id ;;
         write_result <- request (WriteRegister 0x0001 combined_value unit) ;;
         ret (PyBool true))
        (ret (PyBool false))
  | _, _ => raise (ValueError "Invalid baud rate or parity.")
  end.

Definition get_device_info : M pyval :=
  try_except
    (unit <- get_unit_id ;;
     response <- request (ReadHoldingRegisters 0x1000 17 unit) ;;
     check_value_error response
       "Error reading device information registers" ;;;
     info <- struct_result
               (decode_fields (registers response) device_info_fields []) ;;
     ret (PyDict info))
    (ret PyNone).

Definition get_data : M pyval :=
  try_except
    (unit <- get_unit_id ;;
     response <- request (ReadInputRegisters 0x0000 24 unit) ;;
     check_value_error response
       "Error reading device information registers" ;;;
     data <- struct_result
               (decode_fields (registers response) data_fields []) ;;
     ret (PyDict data))
    (ret PyNone).

Definition get_cap_serial : M pyval :=
  try_except
    (unit <- get_unit_id ;;
     response <- request (ReadHoldingRegisters 0x120 5 unit) ;;
     check_value_error response
       "Error reading device information registers" ;;;
     serial <- struct_result
                 (decode (registers response) (Decoder.decode_string 10)) ;;
     ret (PyBytes serial))
    (ret PyNone).

(** [odo_factory_reset] at 0x0200, [conductivity_factory_reset] at
    0x0300. *)
Definition factory_reset (address : Z) : M pyval :=
  try_except_modbus
    (unit <- get_unit_id ;;
     result <- request (WriteRegister address 0x0001 unit) ;;
     ret (PyBool (negb (isError result))))
    (ret (PyBool false)).

Definition odo_factory_reset : M pyval := factory_reset 0x0200.
Definition conductivity_factory_reset : M pyval := factory_reset 0x0300.

(** [get_odo_last_calibration_time_and_qc_score] at 0x0210,
    [get_conductivity_last_calibration_time_and_qc_score] at 0x0310. *)
Definition get_last_calibration_time_and_qc_score (address : Z)
    : M pyval :=
  try_except
    (unit <- get_unit_id ;;
     response <- request (ReadHoldingRegisters address 3 unit) ;;
     check_value_error response
       "Error reading device information registers" ;;;
     data <- struct_result
               (decode_fields (registers response) calibration_fields []) ;;
     ret (PyDict data))
    (ret PyNone).

Definition get_odo_last_calibration_time_and_qc_score : M pyval :=
  get_last_calibration_time_and_qc_score 0x0210.
Definition get_conductivity_last_calibration_time_and_qc_score : M pyval :=
  get_last_calibration_time_and_qc_score 0x0310.

(** The builder calls of the calibration methods: a 32-bit unsigned
    calibration time followed by 32-bit floats. *)
Fixpoint add_floats (values : list pyval) (b : Builder.t)
    : option Builder.t :=
  match values with
  | [] => Some b
  | v :: rest =>
      match Builder.add_32bit_float pack_f v b with
      | Some b' => add_floats rest b'
      | None => None
      end
  end.

Definition calibration_builder (calibration_time : pyval)
    (values : list pyval) : option Builder.t :=
  match Builder.add_32bit_uint calibration_time Builder.empty with
  | Some b => add_floats values b
  | None => None
  end.

(** The exception of the first builder call that fails:
    [struct.error] from [add_32bit_uint] on the calibration time, else
    the failure of [add_32bit_float] on the first float it refuses. *)
Fixpoint floats_error (values : list pyval) : exn :=
  match values with
  | [] => StructError
  | v :: rest =>
      match pack_f v with
      | Some _ => floats_error rest
      | None => pack_failure v
      end
  end.

Definition calibration_error (calibration_time : pyval)
    (values : list pyval) : exn :=
  match Builder.add_32bit_uint calibration_time Builder.empty with
  | Some _ => floats_error values
  | None => StructError
  end.

Definition perform_odo_zero_calibration (calibration_time : pyval)
    : M pyval :=
  builder <- builder_result (calibration_builder calibration_time [])
                            (calibration_error calibration_time []) ;;
  let payload := Builder.build builder in
  try_except
    (unit <- get_unit_id ;;
     request (WriteRegisters 0x0220 (Chunks payload) true unit) ;;;
     ret (PyBool true))
    (ret (PyBool false)).

Definition perform_odo_percent_saturation_calibration
    (calibration_time barometric_pressure : pyval) : M pyval :=
  builder <- builder_result
               (calibration_builder calibration_time
                                    [barometric_pressure])
               (calibration_error calibration_time
                                  [barometric_pressure]) ;;
  let payload := Builder.build builder in
  unit <- get_unit_id ;;
  request (WriteRegisters 0x0230 (Chunks payload) true unit) ;;;
  ret PyNone.

Definition perform_odo_mgL_calibration
    (calibration_time calibration_value calibration_salinity : pyval)
    : M pyval :=
  builder <- builder_result
               (calibration_builder calibration_time
                  [calibration_value; calibration_salinity])
               (calibration_error calibration_time
                  [calibration_value; calibration_salinity]) ;;
  let payload := Builder.build builder in
  unit <- get_unit_id ;;
  request (WriteRegisters 0x0240 (Chunks payload) true unit) ;;;
  ret PyNone.

(** The dictionary display of [get_odo_cap_coefficients], evaluated on
    one decoder from left to right. *)
Definition decode_cap_coefficients : Decoder.step dict :=
  Decoder.bind decode_32bit_float (fun k1 =>
  Decoder.bind decode_32bit_float (fun k2 =>
  Decoder.bind decode_32bit_float (fun k3 =>
  Decoder.bind decode_32bit_float (fun k4 =>
  Decoder.bind decode_32bit_float (fun k5 =>
  Decoder.bind decode_32bit_float (fun k6 =>
  Decoder.bind decode_32bit_float (fun k7 =>
  Decoder.bind Decoder.decode_16bit_uint (fun kc =>
  Decoder.bind Decoder.decode_32bit_uint (fun time =>
  Decoder.ret
    [ ("K1", k1); ("K2", k2); ("K3", k3); ("K4", k4); ("K5", k5);
      ("K6", k6); ("K7", k7); ("KC", PyInt kc);
      ("Cap Replacement Time", PyInt time) ]%string))))))))).

Definition get_odo_cap_coefficients : M pyval :=
  try_except
    (unit <- get_unit_id ;;
     response <- request (ReadHoldingRegisters 0x0100 17 unit) ;;
     check_value_error response "Error reading ODO cap coefficients" ;;;
     coefficients <- struct_result
                       (decode (registers response)
                               decode_cap_coefficients) ;;
     ret (PyDict coefficients))
    (ret PyNone).

(** The loop of [set_odo_cap_coefficients]: [coefficients[key]] raises
    [KeyError], the builder raises [refusal key value]. *)
Fixpoint add_coefficients (keys : list string) (coefficients : dict)
    (b : Builder.t) : result Builder.t :=
  match keys with
  | [] => Ok b
  | key :: rest =>
      match dict_get key coefficients with
      | None => Exc (KeyError key)
      | Some value =>
          match (if String.eqb key "KC"
                 then Builder.add_16bit_uint value b
                 else Builder.add_32bit_float pack_f value b) with
          | Some b' => add_coefficients rest coefficients b'
          | None => Exc (refusal key value)
          end
      end
  end.

Definition set_odo_cap_coefficients (coefficients : dict) : M pyval :=
  builder <- lift (add_coefficients cap_coefficient_keys coefficients
                                    Builder.empty) ;;
  let payload := Builder.build builder in
  try_except
    (unit <- get_unit_id ;;
     request (WriteRegisters 0x0100 (Chunks payload) true unit) ;;;
     ret (PyBool true))
    (ret (PyBool false)).

(** [perform_us_cm_calibration] at 0x0320,
    [perform_salinity_ppt_calibration] at 0x0330. *)
Definition perform_unchecked_calibration (address : Z)
    (calibration_time calibration_value : pyval) : M pyval :=
  builder <- builder_result
               (calibration_builder calibration_time
                                    [calibration_value])
               (calibration_error calibration_time
                                  [calibration_value]) ;;
  let payload := Builder.to_registers builder in
  try_except
    (unit <- get_unit_id ;;
     request (WriteRegisters address (Words payload) false unit) ;;;
     ret PyNone)
    (ret PyNone).

Definition perform_us_cm_calibration := perform_unchecked_calibration 0x0320.
Definition perform_salinity_ppt_calibration :=
  perform_unchecked_calibration 0x0330.

(** [perform_specific_conductance_calibration] at 0x0340,
    [perform_nlf_conductivity_calibration] at 0x0350. *)
Definition perform_connecting_calibration (address : Z) (msg : string)
    (calibration_time calibration_value : pyval) : M pyval :=
  ok <- connect ;;
  if negb ok then raise (AssertionError "Failed to connect to the sensor")
  else
    builder <- builder_result
                 (calibration_builder calibration_time
                                      [calibration_value])
                 (calibration_error calibration_time
                                    [calibration_value]) ;;
    let payload := Builder.to_registers builder in
    unit <- get_unit_id ;;
    result <- request (WriteRegisters address (Words payload) false unit) ;;
    check_exception result msg ;;;
    ret PyNone.

Definition perform_specific_conductance_calibration :=
  perform_connecting_calibration 0x0340
    "Specific conductance calibration failed.".
Definition perform_nlf_conductivity_calibration :=
  perform_connecting_calibration 0x0350
    "nLF conductivity calibration failed.".

(** [get_user_tds_coefficient] at 0x0500,
    [get_user_temperature_reference] at 0x0502,
    [get_user_temperature_coefficient] at 0x0504. *)
Definition get_user_float (address : Z) (msg : string) : M pyval :=
  unit <- get_unit_id ;;
  response <- request (ReadHoldingRegisters address 2 unit) ;;
  check_exception response msg ;;;
  struct_result (decode (registers response) decode_32bit_float).

Definition get_user_tds_coefficient :=
  get_user_float 0x0500 "Failed to read TDS coefficient".
Definition get_user_temperature_reference :=
  get_user_float 0x0502 "Failed to read temperature reference".
Definition get_user_temperature_coefficient :=
  get_user_float 0x0504 "Failed to read temperature coefficient".

(** [set_user_tds_coefficient], [set_user_temperature_reference],
    [set_user_temperature_coefficient]. *)
Definition set_user_float (address : Z) (msg : string) (value : pyval)
    : M pyval :=
  builder <- builder_result
               (Builder.add_32bit_float pack_f value Builder.empty)
               (pack_failure value) ;;
  let payload := Builder.to_registers builder in
  unit <- get_unit_id ;;
  result <- request (WriteRegisters address (Words payload) false unit) ;;
  check_exception result msg ;;;
  ret PyNone.

Definition set_user_tds_coefficient :=
  set_user_float 0x0500 "Failed to set TDS coefficient".
Definition set_user_temperature_reference :=
  set_user_float 0x0502 "Failed to set temperature reference".
Definition set_user_temperature_coefficient :=
  set_user_float 0x0504 "Failed to set temperature coefficient".

(** The public methods and their arguments. *)
Inductive operation : Type :=
| connect_
| disconnect_
| get_baud_rate_and_parity_
| set_baud_rate_and_parity_ (baud_rate : Z) (parity : string)
| get_device_info_
| get_data_
| get_cap_serial_
| odo_factory_reset_
| get_odo_last_calibration_time_and_qc_score_
| perform_odo_zero_calibration_ (calibration_time : pyval)
| perform_odo_percent_saturation_calibration_
    (calibration_time barometric_pressure : pyval)
| perform_odo_mgL_calibration_
    (calibration_time calibration_value calibration_salinity : pyval)
| get_odo_cap_coefficients_
| set_odo_cap_coefficients_ (coefficients : dict)
| conductivity_factory_reset_
| get_conductivity_last_calibration_time_and_qc_score_
| perform_us_cm_calibration_ (calibration_time calibration_value : pyval)
| perform_salinity_ppt_calibration_
    (calibration_time calibration_value : pyval)
| perform_specific_conductance_calibration_
    (calibration_time calibration_value : pyval)
| perform_nlf_conductivity_calibration_
    (calibration_time calibration_value : pyval)
| get_user_tds_coefficient_
| set_user_tds_coefficient_ (tds_coefficient : pyval)
| get_user_temperature_reference_
| set_user_temperature_reference_ (temperature_reference : pyval)
| get_user_temperature_coefficient_
| set_user_temperature_coefficient_ (temperature_coefficient : pyval).

(** Calling a method on the sensor. *)
Definition run (op : operation) : M pyval :=
  match op with
  | connect_ => b <- connect ;; ret (PyBool b)
  | disconnect_ => disconnect ;;; ret PyNone
  | get_baud_rate_and_parity_ => get_baud_rate_and_parity
  | set_baud_rate_and_parity_ b p => set_baud_rate_and_parity b p
  | get_device_info_ => get_device_info
  | get_data_ => get_data
  | get_cap_serial_ => get_cap_serial
  | odo_factory_reset_ => odo_factory_reset
  | get_odo_last_calibration_time_and_qc_score_ =>
      get_odo_last_calibration_time_and_qc_score
  | perform_odo_zero_calibration_ t => perform_odo_zero_calibration t
  | perform_odo_percent_saturation_calibration_ t p =>
      perform_odo_percent_saturation_calibration t p
  | perform_odo_mgL_calibration_ t v sal =>
      perform_odo_mgL_calibration t v sal
  | get_odo_cap_coefficients_ => get_odo_cap_coefficients
  | set_odo_cap_coefficients_ c => set_odo_cap_coefficients c
  | conductivity_factory_reset_ => conductivity_factory_reset
  | get_conductivity_last_calibration_time_and_qc_score_ =>
      get_conductivity_last_calibration_time_and_qc_score
  | perform_us_cm_calibration_ t v => perform_us_cm_calibration t v
  | perform_salinity_ppt_calibration_ t v =>
      perform_salinity_ppt_calibration t v
  | perform_specific_conductance_calibration_ t v =>
      perform_specific_conductance_calibration t v
  | perform_nlf_conductivity_calibration_ t v =>
      perform_nlf_conductivity_calibration t v
  | get_user_tds_coefficient_ => get_user_tds_coefficient
  | set_user_tds_coefficient_ v => set_user_tds_coefficient v
  | get_user_temperature_reference_ => get_user_temperature_reference
  | set_user_temperature_reference_ v => set_user_temperature_reference v
  | get_user_temperature_coefficient_ => get_user_temperature_coefficient
  | set_user_temperature_coefficient_ v =>
      set_user_temperature_coefficient v
  end.

End Driver.

(** ** Devices and conversions used to run the driver on concrete inputs *)

(** A stand-in for the binary32 conversions of [struct]: the upper half
    of the binary64 pattern one way, padded with zeros the other way.  It
    is not IEEE rounding; every result below holds for any conversion,
    and this one only serves to evaluate the driver on examples. *)
Definition pack_f_upper (v : pyval) : option Z :=
  match v with
  | PyFloat d => Some (Z.shiftr d 32)
  | PyInt n => Some n
  | _ => None
  end.

Definition unpack_f_upper (bits : Z) : pyval := PyFloat (Z.shiftl bits 32).

(** A link that opens, and a device that answers every request with an
    error status. *)
Definition rejecting_client : ModbusClient :=
  mkClient (fun _ => Some true) (fun _ _ => Some (mkResponse true [])).

(** A link that opens, and a device that answers every request with the
    given registers and no error status. *)
Definition answering_client (regs : list Z) : ModbusClient :=
  mkClient (fun _ => Some true) (fun _ _ => Some (mkResponse false regs)).

(** A link that cannot be opened: [connect] is false and every request
    raises. *)
Definition closed_client : ModbusClient :=
  mkClient (fun _ => Some false) (fun _ _ => None).

(** The nine cap coefficients of the docstring of
    [set_odo_cap_coefficients], floats by their binary64 patterns. *)
Definition example_coefficients : dict :=
  [ ("K1", PyFloat 0x3FF0000000000000);
    ("K2", PyFloat 0x0000000000000000);
    ("K3", PyFloat 0xBFB999999999999A);
    ("K4", PyFloat 0x3F847AE147AE147B);
    ("K5", PyFloat 0xBF50624DD2F1A9FC);
    ("K6", PyFloat 0x3F1A36E2EB1C432D);
    ("K7", PyFloat 0xBEE4F8B588E368F1);
    ("KC", PyInt 1);
    ("Cap Replacement Time", PyInt 1610000000) ]%string.

(** Seventeen registers of a device-identification block whose serial
    numbers are ["SN1234"] and ["PCB7"], NUL padded to ten and eight
    bytes. *)
Definition example_device_info : list Z :=
  [ 1; 2; 3; 4; 5; 6; 7; 8;
    0x534E; 0x3132; 0x3334; 0x0000; 0x0000;
    0x5043; 0x4237; 0x0000; 0x0000 ].

(** Operations that call [self.connect()] themselves. *)
Definition uses_connect (op : operation) : bool :=
  match op with
  | connect_
  | perform_specific_conductance_calibration_ _ _
  | perform_nlf_conductivity_calibration_ _ _ => true
  | _ => false
  end.

(** ** Reading a layout as register spans *)

(** The number of registers in the slice a field's decoder is built
    from. *)
Definition width (f : field) : nat := stop f - start f.

(** The slices follow one another from register [from] to register [to]:
    each starts where the previous one stops. *)
Fixpoint tiles (from : nat) (fields : list field) (to : nat) : bool :=
  match fields with
  | [] => Nat.eqb from to
  | f :: rest =>
      Nat.eqb (start f) from && Nat.ltb (start f) (stop f)
      && tiles (stop f) rest to
  end.

(** The bytes a decoding call takes from the payload and moves the
    decoder's pointer by. *)
Definition bytes_read (k : kind) : nat :=
  match k with
  | U16 => 2
  | U32 | F32 => 4
  | Str size => size
  end.

(** ** Registers as bytes *)

(** The bytes of a register block on the wire: each register as its high
    byte followed by its low byte. *)
Definition bytes_of_registers (regs : list Z) : bytes :=
  flat_map (fun w => [Z.shiftr w 8; Z.land w 255]) regs.

Definition is_register (w : Z) : Prop := 0 <= w <= 65535.

(** The specification's reading of a fixed string: the bytes with the
    trailing NUL bytes removed.  The driver has no counterpart of it; it
    is here to compare the driver's result with. *)
Fixpoint drop_leading_nul (b : bytes) : bytes :=
  match b with
  | 0 :: rest => drop_leading_nul rest
  | _ => b
  end.

Definition spec_right_trimmed (b : bytes) : bytes :=
  rev (drop_leading_nul (rev b)).

(** ** Arguments the builder accepts *)

(** The value stored under [key] is one the loop of
    [set_odo_cap_coefficients] can pack: a 16-bit integer for ["KC"], a
    value [struct.pack("!f", ...)] accepts otherwise. *)
Definition encodable (pack_f : pyval -> option Z) (key : string)
    (value : pyval) : bool :=
  if String.eqb key "KC"
  then match Struct.as_int value with
       | Some n => (0 <=? n) && (n <=? 65535)
       | None => false
       end
  else match pack_f value with
       | Some _ => true
       | None => false
       end.

(** The mapping has an encodable value under each of the nine keys. *)
Definition supplies_all (pack_f : pyval -> option Z) (coefficients : dict)
    : bool :=
  forallb (fun key => match dict_get key coefficients with
                      | Some value => encodable pack_f key value
                      | None => false
                      end)
          cap_coefficient_keys.


(** The coefficients of the docstring without ["K7"]. *)
Definition coefficients_without_K7 : dict :=
  filter (fun kv => negb (String.eqb (fst kv) "K7")) example_coefficients.

(** A calibration time [struct.pack("!I", ...)] accepts. *)
Definition packs_time (calibration_time : pyval) : bool :=
  match Struct.as_int calibration_time with
  | Some n => (0 <=? n) && (n <=? 4294967295)
  | None => false
  end.

(** A value [struct.pack("!f", ...)] accepts. *)
Definition packs_float (pack_f : pyval -> option Z) (value : pyval) : bool :=
  match pack_f value with
  | Some _ => true
  | None => false
  end.

(** The arguments of a writing method are ones the builder accepts. *)
Definition accepted (pack_f : pyval -> option Z) (op : operation) : bool :=
  match op with
  | perform_odo_zero_calibration_ t => packs_time t
  | perform_odo_percent_saturation_calibration_ t p =>
      packs_time t && packs_float pack_f p
  | perform_odo_mgL_calibration_ t v sal =>
      packs_time t && (packs_float pack_f v && packs_float pack_f sal)
  | set_odo_cap_coefficients_ c => supplies_all pack_f c
  | perform_us_cm_calibration_ t v
  | perform_salinity_ppt_calibration_ t v
  | perform_specific_conductance_calibration_ t v
  | perform_nlf_conductivity_calibration_ t v =>
      packs_time t && packs_float pack_f v
  | set_user_tds_coefficient_ v
  | set_user_temperature_reference_ v
  | set_user_temperature_coefficient_ v => packs_float pack_f v
  | _ => true
  end.

(** ** The register map *)

(** The block each reading method asks for: register kind, address and
    register count. *)
Definition block_read (op : operation) (slave : Z) : option call :=
  match op with
  | get_baud_rate_and_parity_ => Some (ReadHoldingRegisters 0x0001 1 slave)
  | get_device_info_ => Some (ReadHoldingRegisters 0x1000 17 slave)
  | get_data_ => Some (ReadInputRegisters 0x0000 24 slave)
  | get_cap_serial_ => Some (ReadHoldingRegisters 0x0120 5 slave)
  | get_odo_cap_coefficients_ => Some (ReadHoldingRegisters 0x0100 17 slave)
  | get_odo_last_calibration_time_and_qc_score_ =>
      Some (ReadHoldingRegisters 0x0210 3 slave)
  | get_conductivity_last_calibration_time_and_qc_score_ =>
      Some (ReadHoldingRegisters 0x0310 3 slave)
  | get_user_tds_coefficient_ => Some (ReadHoldingRegisters 0x0500 2 slave)
  | get_user_temperature_reference_ =>
      Some (ReadHoldingRegisters 0x0502 2 slave)
  | get_user_temperature_coefficient_ =>
      Some (ReadHoldingRegisters 0x0504 2 slave)
  | _ => None
  end.

(** The block each block-writing method sends: address and register
    count. *)
Definition block_write (op : operation) : option (Z * nat) :=
  match op with
  | set_odo_cap_coefficients_ _ => Some (0x0100, 17%nat)
  | perform_odo_zero_calibration_ _ => Some (0x0220, 2%nat)
  | perform_odo_percent_saturation_calibration_ _ _ => Some (0x0230, 4%nat)
  | perform_odo_mgL_calibration_ _ _ _ => Some (0x0240, 6%nat)
  | perform_us_cm_calibration_ _ _ => Some (0x0320, 4%nat)
  | perform_salinity_ppt_calibration_ _ _ => Some (0x0330, 4%nat)
  | perform_specific_conductance_calibration_ _ _ => Some (0x0340, 4%nat)
  | perform_nlf_conductivity_calibration_ _ _ => Some (0x0350, 4%nat)
  | set_user_tds_coefficient_ _ => Some (0x0500, 2%nat)
  | set_user_temperature_reference_ _ => Some (0x0502, 2%nat)
  | set_user_temperature_coefficient_ _ => Some (0x0504, 2%nat)
  | _ => None
  end.

(** The calls a method starts with before its block transfer. *)
Definition preamble (op : operation) : list call :=
  if uses_connect op then [Connect] else [].

(** A call that puts a request on the bus. *)
Definition is_request (c : call) : bool :=
  match c with
  | Connect | Close => false
  | _ => true
  end.

(** ** How a method tells its caller that the device answered with an
    error status *)




(** ** Values carried by registers *)

(** The 32-bit value of two registers, high word first. *)
Definition u32_of (high low : Z) : Z := Z.lor (Z.shiftl high 16) low.

(** Register [i] of a block, and the 32-bit value at registers [i] and
    [i + 1]. *)
Definition reg (regs : list Z) (i : nat) : Z := nth i regs 0.
Definition u32_at (regs : list Z) (i : nat) : Z :=
  u32_of (reg regs i) (reg regs (S i)).

(** The two registers of a 32-bit pattern, high word first. *)
Definition halves_of (bits : Z) : list Z :=
  [Z.shiftr bits 16; Z.land bits 65535].

(** The registers a [write_registers] call puts on the wire: the integers
    themselves, or each two-byte chunk read high byte first. *)
Definition registers_of_values (values : reg_values) : list Z :=
  match values with
  | Chunks chunks => map Builder.word_of chunks
  | Words words => words
  end.

(** The unit a request is addressed to. *)
Definition slave_of (c : call) : option Z :=
  match c with
  | Connect | Close => None
  | ReadHoldingRegisters _ _ slave
  | ReadInputRegisters _ _ slave
  | WriteRegister _ _ slave
  | WriteRegisters _ _ _ slave => Some slave
  end.

(** ** Exceptions a caller can see *)

(** The exceptions that can leave each method.  The reads wrapped in
    [except Exception], the factory resets, [connect] and [disconnect]
    let none through. *)
Definition may_raise (op : operation) (e : exn) : bool :=
  match op, e with
  | set_baud_rate_and_parity_ _ _, ValueError _ => true
  | perform_odo_zero_calibration_ _, StructError => true
  | perform_us_cm_calibration_ _ _, (StructError | OverflowError) => true
  | perform_salinity_ppt_calibration_ _ _, (StructError | OverflowError) =>
      true
  | perform_odo_percent_saturation_calibration_ _ _,
    (StructError | OverflowError | ModbusException) => true
  | perform_odo_mgL_calibration_ _ _ _,
    (StructError | OverflowError | ModbusException) => true
  | set_odo_cap_coefficients_ _,
    (StructError | OverflowError | KeyError _) => true
  | perform_specific_conductance_calibration_ _ _,
    (AssertionError _ | StructError | OverflowError | ModbusException
     | PlainException _) => true
  | perform_nlf_conductivity_calibration_ _ _,
    (AssertionError _ | StructError | OverflowError | ModbusException
     | PlainException _) => true
  | (get_user_tds_coefficient_ | get_user_temperature_reference_
     | get_user_temperature_coefficient_),
    (StructError | ModbusException | PlainException _) => true
  | (set_user_tds_coefficient_ _ | set_user_temperature_reference_ _
     | set_user_temperature_coefficient_ _),
    (StructError | OverflowError | ModbusException | PlainException _) =>
      true
  | _, _ => false
  end.



(** The address, calibration time and float arguments of a calibration
    method. *)
Definition calibration_args (op : operation)
    : option (Z * pyval * list pyval) :=
  match op with
  | perform_odo_zero_calibration_ t => Some (0x0220, t, [])
  | perform_odo_percent_saturation_calibration_ t p => Some (0x0230, t, [p])
  | perform_odo_mgL_calibration_ t v sal => Some (0x0240, t, [v; sal])
  | perform_us_cm_calibration_ t v => Some (0x0320, t, [v])
  | perform_salinity_ppt_calibration_ t v => Some (0x0330, t, [v])
  | perform_specific_conductance_calibration_ t v => Some (0x0340, t, [v])
  | perform_nlf_conductivity_calibration_ t v => Some (0x0350, t, [v])
  | _ => None
  end.

(** [pack_f] packs each value into the 32-bit pattern beside it. *)
Definition packed_as (pack_f : pyval -> option Z) (values : list pyval)
    (patterns : list Z) : Prop :=
  Forall2 (fun v bits => pack_f v = Some bits /\ 0 <= bits < 4294967296)
          values patterns.

(** The setter, the getter and the address of each user coefficient. *)
Definition user_coefficient_methods (value : pyval)
    : list (operation * operation * Z) :=
  [ (set_user_tds_coefficient_ value, get_user_tds_coefficient_, 0x0500);
    (set_user_temperature_reference_ value,
     get_user_temperature_reference_, 0x0502);
    (set_user_temperature_coefficient_ value,
     get_user_temperature_coefficient_, 0x0504) ].

(** The seven keys of [set_odo_cap_coefficients] before ["KC"]. *)
Definition float_keys : list string :=
  [ "K1"; "K2"; "K3"; "K4"; "K5"; "K6"; "K7" ]%string.

(** ** The example script *)

(** [try: body finally: final] *)
Definition try_finally {A} (body : M A) (final : M unit) : M A :=
  fun s => match body s with
           | (r, s') =>
               match final s' with
               | (Ok _, s'') => (r, s'')
               | (Exc e, s'') => (Exc e, s'')
               end
           end.

(** [main] of [Examples/example_odo_reset.py], on a sensor built with
    [unit_id=1] over the given client. *)
Definition example_main (unpack_f : Z -> pyval) (c : ModbusClient)
    : result unit * sensor :=
  (ok <- connect ;;
   if ok
   then try_finally
          (try_except
             (odo_factory_reset ;;;
              get_odo_last_calibration_time_and_qc_score unpack_f ;;;
              ret tt)
             (ret tt))
          disconnect
   else ret tt) (init c 1).

(** The getter and the address of each user coefficient. *)
Definition user_coefficient_getters : list (operation * Z) :=
  [ (get_user_tds_coefficient_, 0x0500);
    (get_user_temperature_reference_, 0x0502);
    (get_user_temperature_coefficient_, 0x0504) ].

(** The binary32 patterns [struct.pack("!f", ...)] gives for the values of
    the docstring example of [set_odo_cap_coefficients] (1.0, 0.0, -0.1,
    0.01, -0.001, 0.0001, -0.00001 and the integer 1610000000), as a
    finite table.  Values outside the table are refused; of those only
    the float 1e39 is used below, which [struct] refuses too. *)
Definition pack_f_example (v : pyval) : option Z :=
  match v with
  | PyFloat 0x3FF0000000000000 => Some 0x3F800000
  | PyFloat 0x0000000000000000 => Some 0x00000000
  | PyFloat 0xBFB999999999999A => Some 0xBDCCCCCD
  | PyFloat 0x3F847AE147AE147B => Some 0x3C23D70A
  | PyFloat 0xBF50624DD2F1A9FC => Some 0xBA83126F
  | PyFloat 0x3F1A36E2EB1C432D => Some 0x38D1B717
  | PyFloat 0xBEE4F8B588E368F1 => Some 0xB727C5AC
  | PyInt 1610000000 => Some 0x4EBFED4D
  | _ => None
  end.

(** The registers [set_odo_cap_coefficients] sends for the docstring
    example under [pack_f_example]. *)
Definition example_coefficient_registers : list Z :=
  [ 0x3F80; 0x0000; 0x0000; 0x0000; 0xBDCC; 0xCCCD; 0x3C23; 0xD70A;
    0xBA83; 0x126F; 0x38D1; 0xB717; 0xB727; 0xC5AC; 0x0001;
    0x4EBF; 0xED4D ].

(** The docstring example with K3 = 1e39. *)
Definition coefficients_with_large_K3 : dict :=
  dict_set "K3" (PyFloat 0x48078287F49C4A1D) example_coefficients.

(** What [struct.unpack("!f", ...)] gives for a binary32 pattern, as the
    binary64 pattern of the Python float: the conversion is exact, with
    the exponent rebiased, the fraction moved up 29 bits, and a binary32
    subnormal renormalised. *)
Definition unpack_f_exact (bits : Z) : pyval :=
  let sign := Z.shiftr bits 31 in
  let e := Z.land (Z.shiftr bits 23) 255 in
  let m := Z.land bits 0x7FFFFF in
  let magnitude :=
    if e =? 255 then Z.lor (Z.shiftl 0x7FF 52) (Z.shiftl m 29)
    else if e =? 0 then
      if m =? 0 then 0
      else let k := Z.log2 m in
           Z.lor (Z.shiftl (k + 874) 52)
                 (Z.shiftl (m - Z.shiftl 1 k) (52 - k))
    else Z.lor (Z.shiftl (e + 896) 52) (Z.shiftl m 29) in
  PyFloat (Z.lor (Z.shiftl sign 63) magnitude).

(** * Properties *)

(** ** Proof automation for method runs *)

Create HintDb sensor_m.
#[local] Hint Unfold try_except try_except_modbus bind struct_result
  builder_result request
  get_unit_id check_value_error check_exception connect disconnect lift ret
  raise : sensor_m.

Ltac unfold_m := repeat progress autounfold with sensor_m in *.

(** Case analysis on what the client answers and on what the pure
    encoders and decoders return, innermost scrutinee first. *)
Ltac reduce_run :=
  cbv beta iota;
  cbn [fst snd calls connected client unit_id log_call set_connected
       isError registers negb] in *.

Ltac split_run :=
  repeat (reduce_run;
          match goal with
          | |- context [client_execute ?c ?h ?r] =>
              destruct (client_execute c h r) as [[[|] ?]|] eqn:?
          | |- context [client_connect ?c ?h] =>
              destruct (client_connect c h) as [[|]|] eqn:?
          | |- context [match ?o with Some _ => _ | None => _ end] =>
              destruct o eqn:?
          | |- context [match ?o with Ok _ => _ | Exc _ => _ end] =>
              destruct o eqn:?
          end);
  reduce_run.

(** ** The baud-rate and parity word *)

Lemma baud_code_unknown baud_rate :
  ~ In baud_rate (map fst baud_rates) -> baud_code baud_rate = None.
Proof.
  intros H. unfold baud_code, baud_rates. cbn [find fst].
  repeat match goal with
         | |- context [Z.eqb ?a baud_rate] =>
             destruct (Z.eqb_spec a baud_rate);
             [exfalso; apply H; subst; cbn; tauto|]
         end.
  reflexivity.
Qed.

Lemma parity_code_unknown parity :
  ~ In parity (map fst parities) -> parity_code parity = None.
Proof.
  intros H. unfold parity_code, parities. cbn [find fst].
  repeat match goal with
         | |- context [String.eqb ?a parity] =>
             destruct (String.eqb_spec a parity);
             [exfalso; apply H; subst; cbn; tauto|]
         end.
  reflexivity.
Qed.

(** C8.  For every baud rate and parity of the tables,
    [set_baud_rate_and_parity] writes one word to register 0x0001 whose
    high byte is the parity code and whose low byte is the baud code, and
    [get_baud_rate_and_parity], reading that word back, returns exactly
    the two labels. *)
Theorem baud_rate_and_parity_round_trip :
  forall (baud_rate : Z) (parity : string),
    In baud_rate (map fst baud_rates) ->
    In parity (map fst parities) ->
    exists word : Z,
      (forall s, calls (snd (set_baud_rate_and_parity baud_rate parity s))
                 = calls s ++ [WriteRegister 0x0001 word (unit_id s)]) /\
      (exists baud par,
          baud_code baud_rate = Some baud /\ parity_code parity = Some par /\
          Z.shiftr word 8 = par /\ Z.land word 255 = baud) /\
      (forall s,
          client_execute (client s) (calls s)
            (ReadHoldingRegisters 0x0001 1 (unit_id s))
          = Some (mkResponse false [word]) ->
          fst (get_baud_rate_and_parity s)
          = Ok (PyDict [("parity"%string, PyStr parity);
                        ("baud_rate"%string, PyInt baud_rate)])).
Proof.
  intros baud_rate parity Hb Hp.
  cbn [map fst baud_rates parities] in Hb, Hp.
  repeat (destruct Hb as [<- | Hb]; [|]); try contradiction;
    repeat (destruct Hp as [<- | Hp]; [|]); try contradiction;
    (eexists; split; [|split];
     [ intros s; unfold set_baud_rate_and_parity; cbn; unfold_m;
       destruct (client_execute _ _ _); reflexivity
     | do 2 eexists; repeat split; reflexivity
     | intros s Hs; unfold get_baud_rate_and_parity; unfold_m;
       rewrite Hs; reflexivity ]).
Qed.

Lemma baud_rate_and_parity_round_trip_witness :
  exists word : Z,
    (forall s, calls (snd (set_baud_rate_and_parity 19200 "even" s))
               = calls s ++ [WriteRegister 0x0001 word (unit_id s)]) /\
    (exists baud par,
        baud_code 19200 = Some baud /\ parity_code "even" = Some par /\
        Z.shiftr word 8 = par /\ Z.land word 255 = baud) /\
    (forall s,
        client_execute (client s) (calls s)
          (ReadHoldingRegisters 0x0001 1 (unit_id s))
        = Some (mkResponse false [word]) ->
        fst (get_baud_rate_and_parity s)
        = Ok (PyDict [("parity"%string, PyStr "even");
                      ("baud_rate"%string, PyInt 19200)])).
Proof.
  apply (baud_rate_and_parity_round_trip 19200 "even"); cbn; tauto.
Defined.

(** C9.  A baud rate or a parity label outside the tables makes
    [set_baud_rate_and_parity] raise [ValueError] with the sensor left as
    it was: no call reaches the client, no register is written. *)
Theorem set_baud_rate_and_parity_rejects_unknown_labels :
  forall (baud_rate : Z) (parity : string) (s : sensor),
    ~ In baud_rate (map fst baud_rates) \/ ~ In parity (map fst parities) ->
    set_baud_rate_and_parity baud_rate parity s
    = (Exc (ValueError "Invalid baud rate or parity."), s)
    /\ calls (snd (set_baud_rate_and_parity baud_rate parity s)) = calls s.
Proof.
  intros baud_rate parity s H.
  assert (E : set_baud_rate_and_parity baud_rate parity s
              = (Exc (ValueError "Invalid baud rate or parity."), s)).
  { unfold set_baud_rate_and_parity.
    destruct H as [H | H].
    - rewrite (baud_code_unknown _ H). reflexivity.
    - rewrite (parity_code_unknown _ H).
      destruct (baud_code baud_rate); reflexivity. }
  split; [exact E | rewrite E; reflexivity].
Qed.

Lemma set_baud_rate_and_parity_rejects_unknown_labels_witness :
  (~ In 4800 (map fst baud_rates) \/ ~ In "even"%string (map fst parities)) /\
  set_baud_rate_and_parity 4800 "even" (init rejecting_client 1)
  = (Exc (ValueError "Invalid baud rate or parity."), init rejecting_client 1)
  /\ calls (snd (set_baud_rate_and_parity 4800 "even"
                   (init rejecting_client 1)))
     = calls (init rejecting_client 1).
Proof.
  assert (H : ~ In 4800 (map fst baud_rates)
              \/ ~ In "even"%string (map fst parities)).
  { left. cbn. intros H. repeat (destruct H as [H | H]; [discriminate|]).
    exact H. }
  split; [exact H|].
  apply (set_baud_rate_and_parity_rejects_unknown_labels 4800 "even"
           (init rejecting_client 1) H).
Defined.

(** ** The [connected] attribute *)

Create HintDb methods.
#[local] Hint Unfold run get_baud_rate_and_parity set_baud_rate_and_parity
  get_device_info get_data get_cap_serial odo_factory_reset
  conductivity_factory_reset factory_reset
  get_odo_last_calibration_time_and_qc_score
  get_conductivity_last_calibration_time_and_qc_score
  get_last_calibration_time_and_qc_score perform_odo_zero_calibration
  perform_odo_percent_saturation_calibration perform_odo_mgL_calibration
  get_odo_cap_coefficients set_odo_cap_coefficients
  perform_us_cm_calibration perform_salinity_ppt_calibration
  perform_unchecked_calibration perform_specific_conductance_calibration
  perform_nlf_conductivity_calibration perform_connecting_calibration
  get_user_tds_coefficient get_user_temperature_reference
  get_user_temperature_coefficient get_user_float set_user_tds_coefficient
  set_user_temperature_reference set_user_temperature_coefficient
  set_user_float : methods.

Ltac run_method := autounfold with methods; unfold_m; split_run.

(** C10.  [__init__] sets [connected] to false.  [disconnect] closes the
    client and leaves [connected] as it was, so a sensor that connected
    successfully still has [connected = True] after [disconnect].  No
    method other than
    [connect] assigns the attribute: a method that does not call
    [connect] leaves it unchanged, and the two calibrations that call it
    leave the value [connect] gave it. *)
Theorem disconnect_keeps_connected_flag :
  forall (pack_f : pyval -> option Z) (unpack_f : Z -> pyval),
    (forall c unit, connected (init c unit) = false) /\
    (forall s, connected (snd (disconnect s)) = connected s
               /\ calls (snd (disconnect s)) = calls s ++ [Close]) /\
    (forall s, fst (connect s) = Ok true ->
               connected (snd (connect s)) = true
               /\ connected (snd (disconnect (snd (connect s)))) = true) /\
    (forall op s, uses_connect op = false ->
                  connected (snd (run pack_f unpack_f op s)) = connected s) /\
    (forall op s, uses_connect op = true ->
                  connected (snd (run pack_f unpack_f op s))
                  = connected (snd (connect s))).
Proof.
  intros pack_f unpack_f. split; [reflexivity|]. split; [|split; [|split]].
  - intros s. split; reflexivity.
  - intros s. unfold connect, disconnect. cbn.
    destruct (client_connect (client s) (calls s)) as [[|]|];
      cbn; intros H; split; congruence.
  - intros op s H. destruct op; try discriminate H;
      run_method; reflexivity.
  - intros op s H. destruct op; try discriminate H;
      run_method; reflexivity.
Qed.

Lemma disconnect_keeps_connected_flag_witness :
  fst (connect (init (answering_client []) 1)) = Ok true /\
  connected (snd (disconnect (snd (connect (init (answering_client []) 1)))))
  = true /\
  connected (snd (run pack_f_upper unpack_f_upper get_data_
                      (init (answering_client []) 1)))
  = connected (init (answering_client []) 1).
Proof.
  destruct (disconnect_keeps_connected_flag pack_f_upper unpack_f_upper)
    as (_ & _ & Hconnect & Hframe & _).
  split; [reflexivity|]. split.
  - apply (Hconnect (init (answering_client []) 1)). reflexivity.
  - apply (Hframe get_data_ (init (answering_client []) 1)). reflexivity.
Defined.

(** ** The live-snapshot layout *)

Lemma pack_H_in_range w :
  0 <= w <= 65535 ->
  Struct.pack_H w = Some [Z.shiftr w 8; Z.land w 255].
Proof.
  intros [Hlo Hhi]. unfold Struct.pack_H.
  apply Z.leb_le in Hlo. apply Z.leb_le in Hhi.
  rewrite Hlo, Hhi. reflexivity.
Qed.

(** A decoding call moves the pointer by [bytes_read]. *)
Lemma decode_field_advances unpack_f k d v d' :
  decode_field unpack_f k d = Some (v, d') ->
  Decoder.pointer d' = (Decoder.pointer d + bytes_read k)%nat.
Proof.
  destruct k; cbn;
    unfold decode_32bit_float, Decoder.bind, Decoder.decode_32bit_pattern,
      Decoder.decode_16bit_uint, Decoder.decode_32bit_uint,
      Decoder.decode_string, Decoder.take, Decoder.ret; cbn;
    repeat match goal with
           | |- context [option_map _ ?o] => destruct o; cbn
           end;
    intros H; inversion H; reflexivity.
Qed.

(** A 32-bit decode on a four-register slice reads its first two
    registers only. *)
Lemma decode_32bit_float_four_registers unpack_f a b x y :
  0 <= x <= 65535 -> 0 <= y <= 65535 ->
  decode [a; b; x; y] (decode_field unpack_f F32)
  = decode [a; b] (decode_field unpack_f F32).
Proof.
  intros Hx Hy. unfold decode, Decoder.fromRegisters. cbn [Struct.pack_nH].
  rewrite (pack_H_in_range x Hx), (pack_H_in_range y Hy).
  unfold Struct.pack_H.
  destruct ((0 <=? a) && (a <=? 65535)); [|reflexivity].
  destruct ((0 <=? b) && (b <=? 65535)); reflexivity.
Qed.

Lemma decode_fields_ignores_registers_6_7 unpack_f p q x y x' y' :
  List.length p = 6%nat ->
  0 <= x <= 65535 -> 0 <= y <= 65535 ->
  0 <= x' <= 65535 -> 0 <= y' <= 65535 ->
  decode_fields unpack_f (p ++ x :: y :: q) data_fields []
  = decode_fields unpack_f (p ++ x' :: y' :: q) data_fields [].
Proof.
  intros Hp Hx Hy Hx' Hy'.
  do 7 (destruct p as [|? p]; try discriminate Hp).
  unfold data_fields.
  cbn -[decode decode_field dict_set].
  rewrite !decode_32bit_float_four_registers by assumption.
  reflexivity.
Qed.

(** ** Registers and bytes *)

Lemma word_of_its_bytes w :
  Z.lor (Z.shiftl (Z.shiftr w 8) 8) (Z.land w 255) = w.
Proof.
  change 255 with (Z.ones 8).
  rewrite <- Z.ldiff_ones_r by lia.
  apply Z.lor_ldiff_and.
Qed.

Lemma pack_nH_registers regs :
  Forall is_register regs ->
  Struct.pack_nH regs = Some (bytes_of_registers regs).
Proof.
  induction 1 as [|w regs Hw _ IH]; [reflexivity|].
  cbn [Struct.pack_nH bytes_of_registers flat_map].
  rewrite (pack_H_in_range w Hw), IH. reflexivity.
Qed.

Lemma bytes_of_registers_length regs :
  List.length (bytes_of_registers regs) = (2 * List.length regs)%nat.
Proof.
  induction regs as [|w regs IH]; [reflexivity|].
  cbn [bytes_of_registers flat_map List.length app] in *.
  unfold bytes_of_registers in IH. rewrite IH. lia.
Qed.

(** A 16-bit decode of one register returns the register. *)
Lemma decode_16bit_register unpack_f w :
  is_register w ->
  decode [w] (decode_field unpack_f U16) = Some (PyInt w).
Proof.
  intros Hw. unfold decode, Decoder.fromRegisters. cbn [Struct.pack_nH].
  rewrite (pack_H_in_range w Hw).
  cbn [decode_field Decoder.bind Decoder.decode_16bit_uint Decoder.take
       Decoder.ret Decoder.payload Decoder.pointer option_map fst
       Nat.add Nat.sub slice skipn firstn app Struct.unpack_H].
  rewrite word_of_its_bytes. reflexivity.
Qed.

(** A string decode of [size] bytes on a slice of [size / 2] registers
    returns all the bytes of the slice, as they are. *)
Lemma decode_string_registers unpack_f regs size :
  Forall is_register regs ->
  size = (2 * List.length regs)%nat ->
  decode regs (decode_field unpack_f (Str size))
  = Some (PyBytes (bytes_of_registers regs)).
Proof.
  intros Hregs ->. unfold decode, Decoder.fromRegisters.
  rewrite (pack_nH_registers regs Hregs).
  cbn [decode_field Decoder.bind Decoder.decode_string Decoder.take
       Decoder.ret Decoder.payload Decoder.pointer option_map fst
       Nat.add].
  unfold slice. rewrite Nat.sub_diag. cbn [skipn].
  rewrite Nat.sub_0_r, <- bytes_of_registers_length, firstn_all.
  reflexivity.
Qed.

(** ** Fixed strings *)

(** C5, as stated, fails: on a device-identification block whose serial
    numbers are NUL padded, [get_device_info] returns the padding with
    them. *)
Lemma device_info_serials_not_trimmed :
  exists info,
    fst (get_device_info unpack_f_upper
           (init (answering_client example_device_info) 1))
    = Ok (PyDict info) /\
    dict_get "manufacturing_serial_number" info
    = Some (PyBytes [83; 78; 49; 50; 51; 52; 0; 0; 0; 0]) /\
    spec_right_trimmed
      (bytes_of_registers (slice example_device_info 8 13))
    = [83; 78; 49; 50; 51; 52] /\
    dict_get "printed_circuit_board_serial_number" info
    = Some (PyBytes [80; 67; 66; 55; 0; 0; 0; 0]) /\
    spec_right_trimmed
      (bytes_of_registers (slice example_device_info 13 17))
    = [80; 67; 66; 55].
Proof.
  eexists. split; [reflexivity|]. repeat split; reflexivity.
Qed.

(** C5, amended.  A fixed-string field is decoded from its registers as
    two bytes each, high byte first, and returned whole: the ten bytes of
    registers 8 to 12 and the eight bytes of registers 13 to 16 of the
    device-identification block, and the ten bytes of the five cap-serial
    registers, NUL padding included. *)
Theorem fixed_strings_keep_all_bytes :
  forall (unpack_f : Z -> pyval),
    (forall regs s,
        Forall is_register regs ->
        List.length regs = 17%nat ->
        client_execute (client s) (calls s)
          (ReadHoldingRegisters 0x1000 17 (unit_id s))
        = Some (mkResponse false regs) ->
        exists info,
          fst (get_device_info unpack_f s) = Ok (PyDict info) /\
          dict_get "manufacturing_serial_number" info
          = Some (PyBytes (bytes_of_registers (slice regs 8 13))) /\
          dict_get "printed_circuit_board_serial_number" info
          = Some (PyBytes (bytes_of_registers (slice regs 13 17)))) /\
    (forall regs s,
        Forall is_register regs ->
        List.length regs = 5%nat ->
        client_execute (client s) (calls s)
          (ReadHoldingRegisters 0x120 5 (unit_id s))
        = Some (mkResponse false regs) ->
        fst (get_cap_serial s) = Ok (PyBytes (bytes_of_registers regs))).
Proof.
  intros unpack_f. split.
  - intros regs s Hregs Hlen Hclient.
    do 18 (destruct regs as [|? regs]; try discriminate Hlen).
    repeat match goal with
           | H : Forall _ (_ :: _) |- _ => inversion H; clear H; subst
           end.
    unfold get_device_info. unfold_m. rewrite Hclient.
    cbv beta iota. cbn [isError registers].
    unfold device_info_fields.
    cbn -[decode decode_field dict_set bytes_of_registers].
    rewrite !decode_16bit_register by assumption.
    rewrite (decode_string_registers unpack_f _ 10)
      by (first [ reflexivity
                | repeat (apply Forall_cons; [assumption|]);
                  apply Forall_nil ]).
    rewrite (decode_string_registers unpack_f _ 8)
      by (first [ reflexivity
                | repeat (apply Forall_cons; [assumption|]);
                  apply Forall_nil ]).
    eexists. split; [reflexivity|]. split; reflexivity.
  - intros regs s Hregs Hlen Hclient.
    unfold get_cap_serial. unfold_m. rewrite Hclient.
    cbv beta iota. cbn [isError registers].
    pose proof (decode_string_registers unpack_f regs 10 Hregs) as E.
    cbn [decode_field] in E. unfold decode, Decoder.bind in *.
    rewrite Hlen in E. specialize (E eq_refl).
    destruct (Decoder.fromRegisters regs) as [d|]; [|discriminate E].
    destruct (Decoder.decode_string 10 d) as [[b d']|]; [|discriminate E].
    cbn in *. congruence.
Qed.

Lemma fixed_strings_keep_all_bytes_witness :
  fst (get_cap_serial
         (init (answering_client [0x4341; 0x5031; 0x3200; 0; 0]) 1))
  = Ok (PyBytes (bytes_of_registers [0x4341; 0x5031; 0x3200; 0; 0])).
Proof.
  destruct (fixed_strings_keep_all_bytes unpack_f_upper) as [_ H].
  apply H; [|reflexivity|reflexivity].
  repeat (apply Forall_cons; [unfold is_register; lia|]). apply Forall_nil.
Defined.

(** ** Writing the cap coefficients *)

Section CapCoefficients.

Variable pack_f : pyval -> option Z.




(** A completed loop leaves thirty-four bytes: seventeen registers. *)
Lemma cap_payload_length coefficients b :
  add_coefficients pack_f cap_coefficient_keys coefficients Builder.empty
  = Ok b ->
  List.length (Builder.build b) = 17%nat.
Proof.
  unfold cap_coefficient_keys, Builder.empty.
  cbn [add_coefficients String.eqb Ascii.eqb Bool.eqb].
  unfold Builder.add_32bit_float, Builder.add_16bit_uint, Struct.pack_H.
  repeat match goal with
         | |- context [dict_get ?k coefficients] =>
             destruct (dict_get k coefficients); [|discriminate]
         | |- context [pack_f ?v] =>
             destruct (pack_f v); cbn [option_map]; [|discriminate]
         | |- context [Struct.as_int ?v] =>
             destruct (Struct.as_int v); [|discriminate]
         | |- context [if ?c then _ else _] =>
             destruct c; cbn [option_map]; [|discriminate]
         end.
  intros H. inversion H. reflexivity.
Qed.

(** What [set_odo_cap_coefficients] does once the loop has run. *)
Lemma set_odo_cap_coefficients_run coefficients s :
  set_odo_cap_coefficients pack_f coefficients s
  = match add_coefficients pack_f cap_coefficient_keys coefficients
            Builder.empty with
    | Ok b =>
        let c := WriteRegisters 0x0100 (Chunks (Builder.build b)) true
                                (unit_id s) in
        (match client_execute (client s) (calls s) c with
         | Some _ => Ok (PyBool true)
         | None => Ok (PyBool false)
         end, log_call c s)
    | Exc e => (Exc e, s)
    end.
Proof.
  unfold set_odo_cap_coefficients. unfold_m.
  destruct (add_coefficients pack_f cap_coefficient_keys coefficients
              Builder.empty); [|reflexivity].
  cbv beta iota.
  destruct (client_execute _ _ _); reflexivity.
Qed.

End CapCoefficients.

Lemma add_coefficients_complete pack_f coefficients keys :
  forallb (fun key => match dict_get key coefficients with
                      | Some value => encodable pack_f key value
                      | None => false
                      end) keys = true ->
  forall b, exists b',
    add_coefficients pack_f keys coefficients b = Ok b'.
Proof.
  induction keys as [|k keys IH]; intros H b; [exists b; reflexivity|].
  cbn [forallb] in H. apply andb_true_iff in H. destruct H as [Hk Hrest].
  cbn [add_coefficients].
  destruct (dict_get k coefficients) as [v|]; [|discriminate Hk].
  unfold encodable in Hk.
  destruct (String.eqb k "KC").
  - unfold Builder.add_16bit_uint, Struct.pack_H.
    destruct (Struct.as_int v) as [n|]; [|discriminate Hk].
    rewrite Hk. cbn [option_map]. apply IH. exact Hrest.
  - unfold Builder.add_32bit_float.
    destruct (pack_f v) as [bits|]; [|discriminate Hk].
    cbn [option_map]. apply IH. exact Hrest.
Qed.




(** ** The size of a built payload *)

Lemma chunk2_length n : forall buffer,
  List.length buffer = (2 * n)%nat ->
  List.length (Builder.chunk2 buffer) = n.
Proof.
  induction n as [|n IH]; intros buffer H.
  - destruct buffer; [reflexivity | discriminate H].
  - destruct buffer as [|a [|b rest]]; cbn in H; try lia.
    cbn [Builder.chunk2 List.length]. f_equal. apply IH. lia.
Qed.

Lemma encode_snoc b chunk :
  Builder.encode (b ++ [chunk]) = Builder.encode b ++ chunk.
Proof.
  unfold Builder.encode. rewrite concat_app. cbn. rewrite app_nil_r.
  reflexivity.
Qed.

Lemma add_floats_length pack_f values : forall b b' n,
  add_floats pack_f values b = Some b' ->
  List.length (Builder.encode b) = (2 * n)%nat ->
  List.length (Builder.encode b')
  = (2 * (n + 2 * List.length values))%nat.
Proof.
  induction values as [|v values IH]; intros b b' n H Hb.
  - inversion H; subst. cbn. lia.
  - cbn [add_floats] in H. unfold Builder.add_32bit_float in H.
    destruct (pack_f v) as [bits|]; [|discriminate H]. cbn [option_map] in H.
    rewrite (IH _ _ (n + 2)%nat H).
    + cbn [List.length]. lia.
    + rewrite encode_snoc, length_app, Hb. cbn. lia.
Qed.

(** A calibration payload is two registers of time and two per float. *)
Lemma calibration_builder_length pack_f t values b :
  calibration_builder pack_f t values = Some b ->
  List.length (Builder.build b) = (2 + 2 * List.length values)%nat
  /\ List.length (Builder.to_registers b)
     = (2 + 2 * List.length values)%nat.
Proof.
  unfold calibration_builder, Builder.add_32bit_uint, Struct.pack_I.
  destruct (Struct.as_int t) as [n|]; [|discriminate].
  destruct ((0 <=? n) && (n <=? 4294967295)); [|discriminate].
  cbn [option_map Builder.empty app]. intros H.
  assert (L : List.length (Builder.build b)
              = (2 + 2 * List.length values)%nat).
  { apply chunk2_length.
    rewrite (add_floats_length pack_f values _ b 2%nat H); [lia|].
    reflexivity. }
  split; [exact L|].
  unfold Builder.to_registers. rewrite length_map. exact L.
Qed.

Lemma add_floats_accepts pack_f values :
  forallb (packs_float pack_f) values = true ->
  forall b, exists b', add_floats pack_f values b = Some b'.
Proof.
  induction values as [|v values IH]; intros Hvalues b;
    [exists b; reflexivity|].
  cbn [forallb] in Hvalues. apply andb_true_iff in Hvalues.
  destruct Hvalues as [Hv Hrest]. unfold packs_float in Hv.
  cbn [add_floats]. unfold Builder.add_32bit_float.
  destruct (pack_f v) as [bits|]; [|discriminate Hv].
  cbn [option_map]. apply IH. exact Hrest.
Qed.

Lemma calibration_builder_accepts pack_f t values :
  packs_time t = true ->
  forallb (packs_float pack_f) values = true ->
  exists b, calibration_builder pack_f t values = Some b.
Proof.
  unfold packs_time, calibration_builder, Builder.add_32bit_uint,
    Struct.pack_I.
  destruct (Struct.as_int t) as [n|]; [|discriminate].
  intros -> Hvalues. cbn [option_map].
  apply add_floats_accepts. exact Hvalues.
Qed.

(** ** One block transfer per layout *)

Ltac split_accepted :=
  repeat match goal with
         | H : _ && _ = true |- _ =>
             apply andb_true_iff in H; destruct H
         end.

(** A calibration whose arguments are accepted has a payload; the case
    where the builder fails is closed by contradiction. *)
Ltac builder_accepted pack_f :=
  match goal with
  | E : calibration_builder pack_f ?t ?vs = None |- _ =>
      exfalso;
      destruct (calibration_builder_accepts pack_f t vs) as [? ?];
      [ assumption
      | cbn [forallb]; rewrite ?andb_true_r;
        repeat (apply andb_true_iff; split);
        first [assumption | reflexivity]
      | congruence ]
  end.

Ltac payload_size pack_f :=
  match goal with
  | E : calibration_builder pack_f ?t ?vs = Some ?b |- _ =>
      destruct (calibration_builder_length pack_f t vs b E) as [? ?]
  end.

(** C6.  Every reading method issues exactly one block read, at the
    address, register kind and size of its layout: one read of 24 input
    registers at 0x0000 for the live snapshot, one read of 17 holding
    registers at 0x1000 for the device identification.  Every
    block-writing method whose arguments the builder accepts issues
    exactly one block write of its layout's size, after the [connect]
    call of the two calibrations that make one: one write of 17 registers
    at 0x0100 for the cap coefficients. *)
Theorem one_block_transfer_per_layout :
  forall (pack_f : pyval -> option Z) (unpack_f : Z -> pyval),
    (forall op s c,
        block_read op (unit_id s) = Some c ->
        calls (snd (run pack_f unpack_f op s)) = calls s ++ [c]) /\
    (forall op s address n,
        block_write op = Some (address, n) ->
        accepted pack_f op = true ->
        (uses_connect op = true ->
         client_connect (client s) (calls s) = Some true) ->
        exists values skip_encode,
          calls (snd (run pack_f unpack_f op s))
          = calls s ++ preamble op
                    ++ [WriteRegisters address values skip_encode (unit_id s)]
          /\ reg_count values = n).
Proof.
  intros pack_f unpack_f. split.
  - intros op s c H.
    destruct op; try discriminate H; cbn in H; inversion H; subst c;
      run_method; reflexivity.
  - intros op s address n Hw Hacc Hconnect.
    destruct op; try discriminate Hw; cbn in Hw; inversion Hw;
      subst address n; clear Hw;
      cbn [accepted uses_connect preamble app] in *;
      try (rewrite (Hconnect eq_refl)); split_accepted.
    + (* perform_odo_zero_calibration *)
      run_method; try builder_accepted pack_f; payload_size pack_f;
        (do 2 eexists; split; [reflexivity | assumption]).
    + (* perform_odo_percent_saturation_calibration *)
      run_method; try builder_accepted pack_f; payload_size pack_f;
        (do 2 eexists; split; [reflexivity | assumption]).
    + (* perform_odo_mgL_calibration *)
      run_method; try builder_accepted pack_f; payload_size pack_f;
        (do 2 eexists; split; [reflexivity | assumption]).
    + (* set_odo_cap_coefficients *)
      destruct (add_coefficients_complete pack_f coefficients _ Hacc
                  Builder.empty) as (b & Hb).
      exists (Chunks (Builder.build b)), true. cbn [run].
      rewrite set_odo_cap_coefficients_run, Hb.
      split; [reflexivity|].
      apply (cap_payload_length pack_f coefficients b Hb).
    + (* perform_us_cm_calibration *)
      run_method; try builder_accepted pack_f; payload_size pack_f;
        (do 2 eexists; split; [reflexivity | assumption]).
    + (* perform_salinity_ppt_calibration *)
      run_method; try builder_accepted pack_f; payload_size pack_f;
        (do 2 eexists; split; [reflexivity | assumption]).
    + (* perform_specific_conductance_calibration *)
      autounfold with methods; unfold_m; rewrite (Hconnect eq_refl);
        split_run; try builder_accepted pack_f; payload_size pack_f;
        (do 2 eexists; split;
         [rewrite <- app_assoc; reflexivity | assumption]).
    + (* perform_nlf_conductivity_calibration *)
      autounfold with methods; unfold_m; rewrite (Hconnect eq_refl);
        split_run; try builder_accepted pack_f; payload_size pack_f;
        (do 2 eexists; split;
         [rewrite <- app_assoc; reflexivity | assumption]).
    + (* set_user_tds_coefficient *)
      unfold packs_float in Hacc.
      autounfold with methods; unfold Builder.add_32bit_float; unfold_m.
      destruct (pack_f tds_coefficient); [|discriminate Hacc].
      cbn [option_map]. split_run; (do 2 eexists; split; reflexivity).
    + (* set_user_temperature_reference *)
      unfold packs_float in Hacc.
      autounfold with methods; unfold Builder.add_32bit_float; unfold_m.
      destruct (pack_f temperature_reference); [|discriminate Hacc].
      cbn [option_map]. split_run; (do 2 eexists; split; reflexivity).
    + (* set_user_temperature_coefficient *)
      unfold packs_float in Hacc.
      autounfold with methods; unfold Builder.add_32bit_float; unfold_m.
      destruct (pack_f temperature_coefficient); [|discriminate Hacc].
      cbn [option_map]. split_run; (do 2 eexists; split; reflexivity).
Qed.

Lemma one_block_transfer_per_layout_witness :
  calls (snd (run pack_f_upper unpack_f_upper get_data_
                  (init rejecting_client 1)))
  = calls (init rejecting_client 1) ++ [ReadInputRegisters 0x0000 24 1] /\
  calls (snd (run pack_f_upper unpack_f_upper get_device_info_
                  (init rejecting_client 1)))
  = calls (init rejecting_client 1) ++ [ReadHoldingRegisters 0x1000 17 1] /\
  exists values skip_encode,
    calls (snd (run pack_f_upper unpack_f_upper
                    (set_odo_cap_coefficients_ example_coefficients)
                    (init rejecting_client 1)))
    = calls (init rejecting_client 1)
      ++ preamble (set_odo_cap_coefficients_ example_coefficients)
      ++ [WriteRegisters 0x0100 values skip_encode
                         (unit_id (init rejecting_client 1))]
    /\ reg_count values = 17%nat.
Proof.
  destruct (one_block_transfer_per_layout pack_f_upper unpack_f_upper)
    as [Hread Hwrite].
  split; [apply (Hread get_data_ (init rejecting_client 1)); reflexivity|].
  split;
    [apply (Hread get_device_info_ (init rejecting_client 1)); reflexivity|].
  apply (Hwrite (set_odo_cap_coefficients_ example_coefficients)
                (init rejecting_client 1) 0x0100 17%nat);
    [reflexivity | reflexivity | discriminate].
Defined.

(** ** Sessions that are not connected *)

(** C2, as stated, fails: on a sensor that never connected,
    [perform_specific_conductance_calibration] opens the connection
    itself and writes, and [get_data] sends its read. *)
Lemma disconnected_session_is_not_rejected :
  connected (init (answering_client []) 1) = false /\
  (exists payload,
      run pack_f_upper unpack_f_upper
        (perform_specific_conductance_calibration_
           (PyInt 1610000000) (PyFloat 0x4097700000000000))
        (init (answering_client []) 1)
      = (Ok PyNone,
         mkSensor (answering_client []) 1 true
           [Connect; WriteRegisters 0x0340 (Words payload) false 1])) /\
  calls (snd (run pack_f_upper unpack_f_upper get_data_
                  (init (answering_client []) 1)))
  = [ReadInputRegisters 0x0000 24 1].
Proof.
  split; [reflexivity|]. split; [|reflexivity].
  eexists. lazy. reflexivity.
Qed.

(** C2, amended.  No method looks at [connected].  A method other than
    [connect] and the two conductivity calibrations that call it runs on
    a sensor whose flag is false exactly as on one whose flag is true:
    same result, same calls, the flag left as it was, and no [connect]
    among its calls.  [perform_specific_conductance_calibration] and
    [perform_nlf_conductivity_calibration] call [connect] themselves
    first, and raise [AssertionError] without any request when it does
    not return true. *)
Theorem operations_ignore_connected_flag :
  forall (pack_f : pyval -> option Z) (unpack_f : Z -> pyval),
    (forall op s b,
        uses_connect op = false ->
        run pack_f unpack_f op (set_connected b s)
        = (fst (run pack_f unpack_f op s),
           set_connected b (snd (run pack_f unpack_f op s)))
        /\ exists new,
             calls (snd (run pack_f unpack_f op s)) = calls s ++ new
             /\ ~ In Connect new) /\
    (forall op t v s,
        op = perform_specific_conductance_calibration_ t v
        \/ op = perform_nlf_conductivity_calibration_ t v ->
        (exists rest,
            calls (snd (run pack_f unpack_f op s))
            = calls s ++ Connect :: rest) /\
        (client_connect (client s) (calls s) <> Some true ->
         run pack_f unpack_f op s
         = (Exc (AssertionError "Failed to connect to the sensor"),
            set_connected false (log_call Connect s)))).
Proof.
  intros pack_f unpack_f. split.
  - intros op s b H. split.
    + destruct op; try discriminate H; run_method; reflexivity.
    + destruct op; try discriminate H; run_method;
        first [ exists []; split; [symmetry; apply app_nil_r | intros []]
              | eexists; split;
                [reflexivity | intros [E | []]; discriminate E] ].
  - intros op t v s [-> | ->]; (split;
      [ run_method; rewrite <- ?app_assoc; eexists; reflexivity
      | intros Hc; run_method; try reflexivity; congruence ]).
Qed.

Lemma operations_ignore_connected_flag_witness :
  run pack_f_upper unpack_f_upper get_data_
    (set_connected false (init (answering_client []) 1))
  = (fst (run pack_f_upper unpack_f_upper get_data_
            (init (answering_client []) 1)),
     set_connected false
       (snd (run pack_f_upper unpack_f_upper get_data_
               (init (answering_client []) 1)))) /\
  run pack_f_upper unpack_f_upper
    (perform_nlf_conductivity_calibration_ (PyInt 1610000000) (PyFloat 0))
    (init closed_client 1)
  = (Exc (AssertionError "Failed to connect to the sensor"),
     set_connected false (log_call Connect (init closed_client 1))).
Proof.
  destruct (operations_ignore_connected_flag pack_f_upper unpack_f_upper)
    as [Hframe Hconnect].
  split.
  - apply (Hframe get_data_ (init (answering_client []) 1) false).
    reflexivity.
  - apply (Hconnect
             (perform_nlf_conductivity_calibration_ (PyInt 1610000000)
                                                    (PyFloat 0))
             (PyInt 1610000000) (PyFloat 0) (init closed_client 1)).
    + right. reflexivity.
    + discriminate.
Defined.

(** ** Error statuses *)


(** The write result of [set_baud_rate_and_parity] is not examined: on an
    error status the method still returns [True], where its docstring
    promises [False] and [odo_factory_reset] returns
    [not result.isError()]. *)
Lemma set_baud_rate_and_parity_ignores_error_status :
  client_execute rejecting_client [] (WriteRegister 0x0001 0x0201 1)
  = Some (mkResponse true []) /\
  set_baud_rate_and_parity 19200 "even" (init rejecting_client 1)
  = (Ok (PyBool true),
     log_call (WriteRegister 0x0001 0x0201 1) (init rejecting_client 1)) /\
  odo_factory_reset (init rejecting_client 1)
  = (Ok (PyBool false),
     log_call (WriteRegister 0x0200 0x0001 1) (init rejecting_client 1)).
Proof.
  repeat split; reflexivity.
Qed.



(** ** The 32-bit pattern of a float on the wire *)

Lemma halves n : Z.lor (Z.shiftl (Z.shiftr n 16) 16) (Z.land n 65535) = n.
Proof.
  change 65535 with (Z.ones 16).
  rewrite <- Z.ldiff_ones_r by lia.
  apply Z.lor_ldiff_and.
Qed.
Lemma top_byte n : 0 <= n < 4294967296 -> Z.land (Z.shiftr n 24) 255 = Z.shiftr n 24.
Proof.
  intros H. change 255 with (Z.ones 8). rewrite Z.land_ones by lia.
  apply Z.mod_small. rewrite Z.shiftr_div_pow2 by lia.
  change (2 ^ 24) with 16777216. change (2 ^ 8) with 256.
  Z.div_mod_to_equations. lia.
Qed.
Lemma high_word n : 0 <= n < 4294967296 ->
  Z.lor (Z.shiftl (Z.land (Z.shiftr n 24) 255) 8) (Z.land (Z.shiftr n 16) 255) = Z.shiftr n 16.
Proof.
  intros H. rewrite top_byte by assumption.
  replace (Z.shiftr n 24) with (Z.shiftr (Z.shiftr n 16) 8) by (rewrite Z.shiftr_shiftr by lia; reflexivity).
  apply word_of_its_bytes.
Qed.
Lemma low_word n :
  Z.lor (Z.shiftl (Z.land (Z.shiftr n 8) 255) 8) (Z.land n 255) = Z.land n 65535.
Proof.
  rewrite <- (word_of_its_bytes (Z.land n 65535)) at 1.
  rewrite Z.shiftr_land. change (Z.shiftr 65535 8) with 255.
  rewrite <- Z.land_assoc. reflexivity.
Qed.
Lemma high_word_range n : 0 <= n < 4294967296 -> 0 <= Z.shiftr n 16 <= 65535.
Proof.
  intros H. rewrite Z.shiftr_div_pow2 by lia. change (2 ^ 16) with 65536.
  Z.div_mod_to_equations. lia.
Qed.
Lemma low_word_range n : 0 <= Z.land n 65535 <= 65535.
Proof.
  change (Z.land n 65535) with (Z.land n (Z.ones 16)).
  rewrite Z.land_ones by lia.
  change (2 ^ 16) with 65536. Z.div_mod_to_equations. lia.
Qed.
Lemma join_words a b : Z.lor (Z.lor (Z.lor (Z.shiftl (Z.shiftr a 8) 24) (Z.shiftl (Z.land a 255) 16)) (Z.shiftl (Z.shiftr b 8) 8)) (Z.land b 255) = Z.lor (Z.shiftl a 16) b.
Proof.
  rewrite <- Z.lor_assoc. rewrite (word_of_its_bytes b).
  f_equal.
  replace (Z.shiftl (Z.shiftr a 8) 24) with (Z.shiftl (Z.shiftl (Z.shiftr a 8) 8) 16) by (rewrite Z.shiftl_shiftl by lia; reflexivity).
  rewrite <- Z.shiftl_lor. rewrite word_of_its_bytes. reflexivity.
Qed.
Lemma split_high a b : 0 <= a -> 0 <= b <= 65535 -> Z.shiftr (Z.lor (Z.shiftl a 16) b) 16 = a.
Proof.
  intros Ha Hb. rewrite Z.shiftr_lor, Z.shiftr_shiftl_l by lia.
  change (16 - 16) with 0. rewrite Z.shiftl_0_r.
  rewrite (Z.shiftr_div_pow2 b) by lia. change (2 ^ 16) with 65536.
  rewrite Z.div_small by lia. apply Z.lor_0_r.
Qed.
Lemma split_low a b : 0 <= b <= 65535 -> Z.land (Z.lor (Z.shiftl a 16) b) 65535 = b.
Proof.
  intros Hb. change 65535 with (Z.ones 16) at 1. rewrite Z.land_lor_distr_l.
  rewrite !Z.land_ones by lia. rewrite Z.shiftl_mul_pow2 by lia.
  change (2 ^ 16) with 65536.
  rewrite Z.mod_mul by lia. rewrite Z.mod_small by lia. reflexivity.
Qed.

Lemma joined_range a b : 0 <= a <= 65535 -> 0 <= b <= 65535 -> 0 <= Z.lor (Z.shiftl a 16) b < 4294967296.
Proof.
  intros Ha Hb. split.
  - apply Z.lor_nonneg. split; [apply Z.shiftl_nonneg|]; lia.
  - change 4294967296 with (2 ^ 32). apply Z.log2_lt_cancel.
    rewrite Z.log2_pow2 by lia.
    assert (0 <= Z.shiftl a 16) by (apply Z.shiftl_nonneg; lia).
    rewrite Z.log2_lor by lia.
    apply Z.max_lub_lt.
    + destruct (Z.eq_dec a 0) as [->|]; [cbn; lia|].
      rewrite Z.log2_shiftl by lia.
      assert (Z.log2 a < 16); [|lia].
      apply Z.log2_lt_pow2; lia.
    + destruct (Z.eq_dec b 0) as [->|]; [cbn; lia|].
      assert (Z.log2 b < 16); [|lia].
      apply Z.log2_lt_pow2; lia.
Qed.

(** The registers [to_registers] makes of a packed 32-bit pattern: its
    high half, then its low half. *)
Lemma to_registers_of_pattern bits :
  0 <= bits < 4294967296 ->
  Builder.to_registers [Struct.bytes_of_u32 bits]
  = [Z.shiftr bits 16; Z.land bits 65535].
Proof.
  intros H.
  unfold Builder.to_registers, Builder.build, Builder.encode,
    Struct.bytes_of_u32.
  cbn [List.concat app Builder.chunk2 map Builder.word_of Struct.unpack_H].
  rewrite (high_word bits H), low_word. reflexivity.
Qed.

(** The pattern a 32-bit decode reads from two registers. *)
Lemma decode_pattern_of_registers w1 w2 :
  is_register w1 -> is_register w2 ->
  decode [w1; w2] Decoder.decode_32bit_pattern
  = Some (Z.lor (Z.shiftl w1 16) w2).
Proof.
  intros H1 H2. unfold decode, Decoder.fromRegisters.
  cbn [Struct.pack_nH].
  rewrite (pack_H_in_range w1 H1), (pack_H_in_range w2 H2).
  cbn [app Decoder.decode_32bit_pattern Decoder.decode_32bit_uint
       Decoder.take Decoder.payload Decoder.pointer option_map fst
       Nat.add Nat.sub slice skipn firstn Struct.unpack_I].
  rewrite join_words. reflexivity.
Qed.

(** X15.  Packing a pattern into registers and decoding them gives the
    pattern back, and decoding two registers and packing the pattern gives the
    registers back. *)
Lemma pattern_registers_round_trip :
  (forall bits,
      0 <= bits < 4294967296 ->
      decode (Builder.to_registers [Struct.bytes_of_u32 bits])
             Decoder.decode_32bit_pattern
      = Some bits) /\
  (forall w1 w2 bits,
      is_register w1 -> is_register w2 ->
      decode [w1; w2] Decoder.decode_32bit_pattern = Some bits ->
      Builder.to_registers [Struct.bytes_of_u32 bits] = [w1; w2]).
Proof.
  split.
  - intros bits H. rewrite (to_registers_of_pattern bits H).
    rewrite decode_pattern_of_registers
      by (unfold is_register;
          first [apply high_word_range; assumption | apply low_word_range]).
    rewrite halves. reflexivity.
  - intros w1 w2 bits H1 H2 H.
    rewrite (decode_pattern_of_registers w1 w2 H1 H2) in H.
    assert (E : bits = Z.lor (Z.shiftl w1 16) w2) by congruence.
    subst bits. clear H.
    rewrite to_registers_of_pattern by (apply joined_range; assumption).
    unfold is_register in *.
    rewrite split_high, split_low by lia. reflexivity.
Qed.

(** [set_user_tds_coefficient] sends the pattern [struct] packed, and
    [get_user_tds_coefficient], given those registers, hands the same
    pattern to [struct]: between the two conversions the driver changes
    no bit. *)
Lemma user_tds_coefficient_read_back pack_f unpack_f value bits s s' :
  pack_f value = Some bits ->
  0 <= bits < 4294967296 ->
  calls (snd (set_user_tds_coefficient pack_f value s))
  = calls s ++ [WriteRegisters 0x0500
                  (Words [Z.shiftr bits 16; Z.land bits 65535]) false
                  (unit_id s)]
  /\ (client_execute (client s') (calls s')
        (ReadHoldingRegisters 0x0500 2 (unit_id s'))
      = Some (mkResponse false [Z.shiftr bits 16; Z.land bits 65535]) ->
      fst (get_user_tds_coefficient unpack_f s') = Ok (unpack_f bits)).
Proof.
  intros Hpack Hbits. split.
  - unfold set_user_tds_coefficient, set_user_float,
      Builder.add_32bit_float.
    rewrite Hpack. cbn [option_map Builder.empty app].
    unfold_m. rewrite (to_registers_of_pattern bits Hbits).
    split_run; reflexivity.
  - intros Hread.
    unfold get_user_tds_coefficient, get_user_float. unfold_m.
    rewrite Hread. reduce_run.
    pose proof (decode_pattern_of_registers (Z.shiftr bits 16)
                  (Z.land bits 65535)) as E.
    unfold is_register in E.
    specialize (E (high_word_range bits Hbits) (low_word_range bits)).
    rewrite halves in E.
    unfold decode, decode_32bit_float, Decoder.bind, Decoder.ret in *.
    destruct (Decoder.fromRegisters _) as [d|]; [|discriminate E].
    destruct (Decoder.decode_32bit_pattern d) as [[p d']|];
      [|discriminate E].
    cbn [option_map fst] in E |- *.
    assert (E' : p = bits) by congruence. subst p. reflexivity.
Qed.

(** * Further properties of the driver *)

(** ** Decoding one field *)

Lemma decode_float_registers unpack_f a b :
  is_register a -> is_register b ->
  decode [a; b] (decode_field unpack_f F32) = Some (unpack_f (u32_of a b)).
Proof.
  intros Ha Hb.
  pose proof (decode_pattern_of_registers a b Ha Hb) as E.
  cbn [decode_field].
  unfold decode, decode_32bit_float, Decoder.bind, Decoder.ret, u32_of in *.
  destruct (Decoder.fromRegisters [a; b]) as [d|]; [|discriminate E].
  destruct (Decoder.decode_32bit_pattern d) as [[p d']|]; [|discriminate E].
  cbn [option_map fst] in E |- *.
  assert (E' : p = Z.lor (Z.shiftl a 16) b) by congruence.
  subst p. reflexivity.
Qed.

Lemma decode_u32_registers unpack_f a b :
  is_register a -> is_register b ->
  decode [a; b] (decode_field unpack_f U32) = Some (PyInt (u32_of a b)).
Proof.
  intros Ha Hb.
  pose proof (decode_pattern_of_registers a b Ha Hb) as E.
  cbn [decode_field].
  unfold decode, Decoder.decode_32bit_pattern, Decoder.bind, Decoder.ret,
    u32_of in *.
  destruct (Decoder.fromRegisters [a; b]) as [d|]; [|discriminate E].
  destruct (Decoder.decode_32bit_uint d) as [[p d']|]; [|discriminate E].
  cbn [option_map fst] in E |- *.
  assert (E' : p = Z.lor (Z.shiftl a 16) b) by congruence.
  subst p. reflexivity.
Qed.

(** A field whose slice cannot be decoded makes the whole layout fail. *)
Lemma decode_fields_fails unpack_f regs fields f :
  In f fields ->
  decode (slice regs (start f) (stop f)) (decode_field unpack_f (decoded f))
  = None ->
  forall data, decode_fields unpack_f regs fields data = None.
Proof.
  induction fields as [|g fields IH]; intros Hin Hf data; [contradiction|].
  cbn [decode_fields].
  destruct Hin as [-> | Hin].
  - rewrite Hf. reflexivity.
  - destruct (decode (slice regs (start g) (stop g))
                     (decode_field unpack_f (decoded g)));
      [|reflexivity].
    apply IH; assumption.
Qed.

(** Fewer than two registers cannot hold a 32-bit value. *)
Lemma decode_32bit_short unpack_f regs k :
  (List.length regs < 2)%nat ->
  k = F32 \/ k = U32 ->
  decode regs (decode_field unpack_f k) = None.
Proof.
  intros Hlen Hk.
  destruct regs as [|a [|b regs]]; [| |cbn in Hlen; lia];
    unfold decode, Decoder.fromRegisters; cbn [Struct.pack_nH];
    unfold Struct.pack_H;
    try destruct ((0 <=? a) && (a <=? 65535));
    destruct Hk as [-> | ->]; reflexivity.
Qed.

Lemma slice_length {A} (l : list A) a b :
  List.length (slice l a b) = Nat.min (b - a) (List.length l - a).
Proof.
  unfold slice. rewrite length_firstn, length_skipn. reflexivity.
Qed.

Ltac registers_in_range :=
  repeat match goal with
         | H : Forall is_register (_ :: _) |- _ =>
             apply Forall_cons_iff in H; destruct H
         end.

(** ** The live snapshot *)

(** X1.  When the device answers the live-snapshot read with at least 24
    registers, [get_data] returns the eleven readings in the order of the
    source, each taken from two registers, high word first: ten floats
    and the unsigned [time_since_boot]; registers 6 and 7 and any
    register past the 24th are not used. *)
Theorem get_data_decodes_block :
  forall (unpack_f : Z -> pyval) (regs : list Z) (s : sensor),
    Forall is_register regs ->
    (24 <= List.length regs)%nat ->
    client_execute (client s) (calls s)
      (ReadInputRegisters 0x0000 24 (unit_id s))
    = Some (mkResponse false regs) ->
    fst (get_data unpack_f s)
    = Ok (PyDict
            [ ("odo_saturation", unpack_f (u32_at regs 0));
              ("odo_concentration", unpack_f (u32_at regs 2));
              ("odo_local_barometer_compensated", unpack_f (u32_at regs 4));
              ("temperature", unpack_f (u32_at regs 8));
              ("ref_temperature", unpack_f (u32_at regs 10));
              ("time_since_boot", PyInt (u32_at regs 12));
              ("conductivity", unpack_f (u32_at regs 14));
              ("specific_conductivity", unpack_f (u32_at regs 16));
              ("salinity", unpack_f (u32_at regs 18));
              ("conductivity _nLF", unpack_f (u32_at regs 20));
              ("total_dissolved_solids", unpack_f (u32_at regs 22)) ]%string).
Proof.
  intros unpack_f regs s Hregs Hlen Hclient.
  do 24 (destruct regs as [|? regs]; [cbn in Hlen; lia|]).
  registers_in_range.
  unfold get_data. unfold_m. rewrite Hclient. reduce_run.
  unfold data_fields, u32_at, reg.
  cbn -[decode decode_field dict_set u32_of].
  rewrite decode_32bit_float_four_registers by assumption.
  rewrite !decode_float_registers, decode_u32_registers by assumption.
  reflexivity.
Qed.

Lemma get_data_decodes_block_witness :
  fst (get_data unpack_f_upper
         (init (answering_client
                  [ 0x42C8; 0x0000; 0x4108; 0x0000; 0x42C6; 0x0000; 0; 0;
                    0x41A0; 0x0000; 0x41A1; 0x0000; 0x0000; 0x0E10;
                    0x4348; 0x0000; 0x4349; 0x0000; 0x3DCC; 0xCCCD;
                    0x434A; 0x0000; 0x4302; 0x0000 ]) 1))
  = Ok (PyDict
          [ ("odo_saturation", unpack_f_upper 0x42C80000);
            ("odo_concentration", unpack_f_upper 0x41080000);
            ("odo_local_barometer_compensated", unpack_f_upper 0x42C60000);
            ("temperature", unpack_f_upper 0x41A00000);
            ("ref_temperature", unpack_f_upper 0x41A10000);
            ("time_since_boot", PyInt 3600);
            ("conductivity", unpack_f_upper 0x43480000);
            ("specific_conductivity", unpack_f_upper 0x43490000);
            ("salinity", unpack_f_upper 0x3DCCCCCD);
            ("conductivity _nLF", unpack_f_upper 0x434A0000);
            ("total_dissolved_solids", unpack_f_upper 0x43020000) ]%string).
Proof.
  apply (get_data_decodes_block unpack_f_upper
           [ 0x42C8; 0x0000; 0x4108; 0x0000; 0x42C6; 0x0000; 0; 0;
             0x41A0; 0x0000; 0x41A1; 0x0000; 0x0000; 0x0E10;
             0x4348; 0x0000; 0x4349; 0x0000; 0x3DCC; 0xCCCD;
             0x434A; 0x0000; 0x4302; 0x0000 ]).
  - repeat (apply Forall_cons; [unfold is_register; lia|]). apply Forall_nil.
  - cbn. lia.
  - reflexivity.
Defined.

(** X2.  [get_data] returns no partial dictionary: when the device
    answers without error but with fewer than 24 registers, the result is
    [None], whatever the registers are. *)
Theorem get_data_short_answer_is_none :
  forall (unpack_f : Z -> pyval) (regs : list Z) (s : sensor),
    (List.length regs < 24)%nat ->
    client_execute (client s) (calls s)
      (ReadInputRegisters 0x0000 24 (unit_id s))
    = Some (mkResponse false regs) ->
    get_data unpack_f s
    = (Ok PyNone, log_call (ReadInputRegisters 0x0000 24 (unit_id s)) s).
Proof.
  intros unpack_f regs s Hlen Hclient.
  unfold get_data. unfold_m. rewrite Hclient. reduce_run.
  rewrite (decode_fields_fails unpack_f regs data_fields
             (mkField "total_dissolved_solids" 22 24 F32)).
  - reflexivity.
  - cbn. tauto.
  - apply decode_32bit_short; [|left; reflexivity].
    rewrite slice_length. cbn [start stop]. lia.
Qed.

Lemma get_data_short_answer_is_none_witness :
  get_data unpack_f_upper
    (init (answering_client (repeat 0x4000 23)) 1)
  = (Ok PyNone,
     log_call (ReadInputRegisters 0x0000 24 1)
              (init (answering_client (repeat 0x4000 23)) 1)).
Proof.
  apply (get_data_short_answer_is_none unpack_f_upper (repeat 0x4000 23)).
  - cbn. lia.
  - reflexivity.
Defined.

(** ** Device identification and cap serial *)

Lemma Forall_firstn_registers n regs :
  Forall is_register regs -> Forall is_register (firstn n regs).
Proof.
  revert regs. induction n as [|n IH]; intros regs H; [constructor|].
  destruct H as [|w regs Hw H]; [constructor|].
  cbn [firstn]. constructor; [exact Hw | apply IH; exact H].
Qed.

Lemma Forall_skipn_registers n regs :
  Forall is_register regs -> Forall is_register (skipn n regs).
Proof.
  revert regs. induction n as [|n IH]; intros regs H; [exact H|].
  destruct H as [|w regs Hw H]; [constructor|].
  cbn [skipn]. apply IH. exact H.
Qed.

(** A string decode returns the leading [size] bytes of its slice, and
    all of them when the slice is shorter. *)
Lemma decode_string_prefix unpack_f regs size :
  Forall is_register regs ->
  decode regs (decode_field unpack_f (Str size))
  = Some (PyBytes (firstn size (bytes_of_registers regs))).
Proof.
  intros Hregs. unfold decode, Decoder.fromRegisters.
  rewrite (pack_nH_registers regs Hregs).
  cbn [decode_field Decoder.bind Decoder.decode_string Decoder.take
       Decoder.ret Decoder.payload Decoder.pointer option_map fst
       Nat.add].
  unfold slice. rewrite Nat.sub_diag. cbn [skipn].
  rewrite Nat.sub_0_r. reflexivity.
Qed.

Lemma slice_tail {A} (a : A) l i j :
  slice (a :: l) (S i) (S j) = slice l i j.
Proof. reflexivity. Qed.

Lemma slice_head {A} (a : A) l : slice (a :: l) 0 1 = [a].
Proof. reflexivity. Qed.

Lemma Forall_slice_registers regs a b :
  Forall is_register regs -> Forall is_register (slice regs a b).
Proof.
  intros H. unfold slice.
  apply Forall_firstn_registers, Forall_skipn_registers. exact H.
Qed.

Lemma decode_16bit_empty unpack_f :
  decode [] (decode_field unpack_f U16) = None.
Proof. reflexivity. Qed.

(** X3.  When the device answers the identification read with at least
    eight registers, [get_device_info] returns the eight identifiers as
    the first eight registers and, for each serial number, the bytes of
    the registers that are there in its slice (8 to 12, 13 to 16), high
    byte first: all ten and eight bytes on a full block, fewer, down to
    the empty bytes value, on a shorter answer. *)
Theorem get_device_info_decodes_block :
  forall (unpack_f : Z -> pyval) (regs : list Z) (s : sensor),
    Forall is_register regs ->
    (8 <= List.length regs)%nat ->
    client_execute (client s) (calls s)
      (ReadHoldingRegisters 0x1000 17 (unit_id s))
    = Some (mkResponse false regs) ->
    fst (get_device_info unpack_f s)
    = Ok (PyDict
            [ ("product_id", PyInt (reg regs 0));
              ("model_id", PyInt (reg regs 1));
              ("submodel_id", PyInt (reg regs 2));
              ("firmware_major_revision", PyInt (reg regs 3));
              ("firmware_minor_revision", PyInt (reg regs 4));
              ("firmware_subminor_revision", PyInt (reg regs 5));
              ("hardware_major_revision", PyInt (reg regs 6));
              ("hardware_minor_revision", PyInt (reg regs 7));
              ("manufacturing_serial_number",
               PyBytes (firstn 10 (bytes_of_registers (slice regs 8 13))));
              ("printed_circuit_board_serial_number",
               PyBytes (firstn 8 (bytes_of_registers (slice regs 13 17))))
            ]%string).
Proof.
  intros unpack_f regs s Hregs Hlen Hclient.
  do 8 (destruct regs as [|? regs]; [cbn in Hlen; lia|]).
  registers_in_range.
  unfold get_device_info. unfold_m. rewrite Hclient. reduce_run.
  unfold device_info_fields, reg.
  cbn [decode_fields start stop name decoded nth].
  rewrite !slice_tail, !slice_head.
  rewrite !decode_16bit_register by assumption.
  rewrite !decode_string_prefix
    by (apply Forall_slice_registers; assumption).
  reflexivity.
Qed.

Lemma get_device_info_decodes_block_witness :
  fst (get_device_info unpack_f_upper
         (init (answering_client [1; 2; 3; 4; 5; 6; 7; 8; 0x534E]) 1))
  = Ok (PyDict
          [ ("product_id", PyInt 1);
            ("model_id", PyInt 2);
            ("submodel_id", PyInt 3);
            ("firmware_major_revision", PyInt 4);
            ("firmware_minor_revision", PyInt 5);
            ("firmware_subminor_revision", PyInt 6);
            ("hardware_major_revision", PyInt 7);
            ("hardware_minor_revision", PyInt 8);
            ("manufacturing_serial_number", PyBytes [83; 78]);
            ("printed_circuit_board_serial_number", PyBytes []) ]%string).
Proof.
  apply (get_device_info_decodes_block unpack_f_upper
           [1; 2; 3; 4; 5; 6; 7; 8; 0x534E]).
  - repeat (apply Forall_cons; [unfold is_register; lia|]). apply Forall_nil.
  - cbn. lia.
  - reflexivity.
Defined.

(** X4.  With fewer than eight registers in the answer
    [get_device_info] returns [None]. *)
Theorem get_device_info_short_answer_is_none :
  forall (unpack_f : Z -> pyval) (regs : list Z) (s : sensor),
    (List.length regs < 8)%nat ->
    client_execute (client s) (calls s)
      (ReadHoldingRegisters 0x1000 17 (unit_id s))
    = Some (mkResponse false regs) ->
    get_device_info unpack_f s
    = (Ok PyNone, log_call (ReadHoldingRegisters 0x1000 17 (unit_id s)) s).
Proof.
  intros unpack_f regs s Hlen Hclient.
  unfold get_device_info. unfold_m. rewrite Hclient. reduce_run.
  rewrite (decode_fields_fails unpack_f regs device_info_fields
             (mkField "hardware_minor_revision" 7 8 U16)).
  - reflexivity.
  - cbn. tauto.
  - cbn [start stop decoded].
    assert (E : slice regs 7 8 = []).
    { apply length_zero_iff_nil. rewrite slice_length. lia. }
    rewrite E. apply decode_16bit_empty.
Qed.

Lemma get_device_info_short_answer_is_none_witness :
  get_device_info unpack_f_upper
    (init (answering_client [1; 2; 3; 4; 5; 6; 7]) 1)
  = (Ok PyNone,
     log_call (ReadHoldingRegisters 0x1000 17 1)
              (init (answering_client [1; 2; 3; 4; 5; 6; 7]) 1)).
Proof.
  apply (get_device_info_short_answer_is_none unpack_f_upper
           [1; 2; 3; 4; 5; 6; 7]).
  - cbn. lia.
  - reflexivity.
Defined.

(** X5.  [get_cap_serial] returns the first ten bytes of the registers
    the device answered with, high byte first; a shorter answer gives a
    shorter bytes value, an empty one the empty bytes value, not [None]. *)
Theorem get_cap_serial_returns_prefix :
  forall (regs : list Z) (s : sensor),
    Forall is_register regs ->
    client_execute (client s) (calls s)
      (ReadHoldingRegisters 0x120 5 (unit_id s))
    = Some (mkResponse false regs) ->
    fst (get_cap_serial s)
    = Ok (PyBytes (firstn 10 (bytes_of_registers regs))).
Proof.
  intros regs s Hregs Hclient.
  unfold get_cap_serial. unfold_m. rewrite Hclient. reduce_run.
  pose proof (decode_string_prefix (fun _ => PyNone) regs 10 Hregs) as E.
  cbn [decode_field] in E. unfold decode, Decoder.bind, Decoder.ret in *.
  destruct (Decoder.fromRegisters regs) as [d|]; [|discriminate E].
  destruct (Decoder.decode_string 10 d) as [[b d']|]; [|discriminate E].
  cbn [option_map fst] in E |- *.
  assert (E' : b = firstn 10 (bytes_of_registers regs)) by congruence.
  subst b. reflexivity.
Qed.

Lemma get_cap_serial_returns_prefix_witness :
  fst (get_cap_serial (init (answering_client []) 1)) = Ok (PyBytes []).
Proof.
  apply (get_cap_serial_returns_prefix [] (init (answering_client []) 1)).
  - apply Forall_nil.
  - reflexivity.
Defined.

(** ** Calibration records and cap coefficients *)

(** X6.  The two last-calibration reads return the calibration time as
    the 32-bit value of registers 0 and 1, high word first, and the score
    as register 2, for any answer of at least three registers; with fewer
    than three they return [None]. *)
Theorem last_calibration_decodes_block :
  forall (pack_f : pyval -> option Z) (unpack_f : Z -> pyval)
         (op : operation) (address : Z) (regs : list Z) (s : sensor),
    (op = get_odo_last_calibration_time_and_qc_score_ /\ address = 0x0210)
    \/ (op = get_conductivity_last_calibration_time_and_qc_score_
        /\ address = 0x0310) ->
    Forall is_register regs ->
    client_execute (client s) (calls s)
      (ReadHoldingRegisters address 3 (unit_id s))
    = Some (mkResponse false regs) ->
    fst (run pack_f unpack_f op s)
    = if Nat.leb 3 (List.length regs)
      then Ok (PyDict [ ("last_calibration_time", PyInt (u32_at regs 0));
                        ("qc_score", PyInt (reg regs 2)) ]%string)
      else Ok PyNone.
Proof.
  intros pack_f unpack_f op address regs s Hop Hregs Hclient.
  assert (E : fst (get_last_calibration_time_and_qc_score unpack_f
                     address s)
              = if Nat.leb 3 (List.length regs)
                then Ok (PyDict
                           [ ("last_calibration_time",
                              PyInt (u32_at regs 0));
                             ("qc_score", PyInt (reg regs 2)) ]%string)
                else Ok PyNone).
  { unfold get_last_calibration_time_and_qc_score. unfold_m.
    rewrite Hclient. reduce_run.
    destruct (Nat.leb_spec 3 (List.length regs)) as [Hlen | Hlen].
    - do 3 (destruct regs as [|? regs]; [cbn in Hlen; lia|]).
      registers_in_range.
      unfold calibration_fields, u32_at, reg.
      cbn [decode_fields start stop name decoded nth].
      rewrite !slice_tail, !slice_head.
      change (slice (z :: z0 :: z1 :: regs) 0 2) with [z; z0].
      rewrite decode_u32_registers, decode_16bit_register by assumption.
      reflexivity.
    - rewrite (decode_fields_fails unpack_f regs calibration_fields
                 (mkField "qc_score" 2 3 U16)).
      + reflexivity.
      + cbn. tauto.
      + cbn [start stop decoded].
        assert (E : slice regs 2 3 = []).
        { apply length_zero_iff_nil. rewrite slice_length. lia. }
        rewrite E. apply decode_16bit_empty. }
  destruct Hop as [[-> ->] | [-> ->]]; exact E.
Qed.

Lemma last_calibration_decodes_block_witness :
  fst (run pack_f_upper unpack_f_upper
         get_odo_last_calibration_time_and_qc_score_
         (init (answering_client [0x5FF6; 0xA680; 95]) 1))
  = Ok (PyDict [ ("last_calibration_time", PyInt 1610000000);
                 ("qc_score", PyInt 95) ]%string).
Proof.
  apply (last_calibration_decodes_block pack_f_upper unpack_f_upper
           get_odo_last_calibration_time_and_qc_score_ 0x0210
           [0x5FF6; 0xA680; 95] (init (answering_client _) 1)).
  - left. split; reflexivity.
  - repeat (apply Forall_cons; [unfold is_register; lia|]). apply Forall_nil.
  - reflexivity.
Defined.

(** The dictionary display of [get_odo_cap_coefficients] on at least 17
    registers. *)
Lemma decode_cap_coefficients_registers unpack_f regs :
  Forall is_register regs ->
  (17 <= List.length regs)%nat ->
  decode regs (decode_cap_coefficients unpack_f)
  = Some [ ("K1", unpack_f (u32_at regs 0));
           ("K2", unpack_f (u32_at regs 2));
           ("K3", unpack_f (u32_at regs 4));
           ("K4", unpack_f (u32_at regs 6));
           ("K5", unpack_f (u32_at regs 8));
           ("K6", unpack_f (u32_at regs 10));
           ("K7", unpack_f (u32_at regs 12));
           ("KC", PyInt (reg regs 14));
           ("Cap Replacement Time", PyInt (u32_at regs 15)) ]%string.
Proof.
  intros Hregs Hlen.
  unfold decode, Decoder.fromRegisters.
  rewrite (pack_nH_registers regs Hregs).
  do 17 (destruct regs as [|? regs]; [cbn in Hlen; lia|]).
  unfold decode_cap_coefficients, decode_32bit_float,
    Decoder.decode_32bit_pattern, u32_at, reg, u32_of.
  cbn [bytes_of_registers flat_map app Decoder.bind
       Decoder.decode_32bit_uint Decoder.decode_16bit_uint Decoder.take
       Decoder.ret Decoder.payload Decoder.pointer option_map fst
       Nat.add Nat.sub slice skipn firstn Struct.unpack_I Struct.unpack_H
       nth].
  rewrite !join_words, word_of_its_bytes. reflexivity.
Qed.

(** X7.  On an answer of at least 17 registers
    [get_odo_cap_coefficients] returns K1 to K7 as the floats of the
    register pairs 0-1 to 12-13, KC as register 14 and the cap
    replacement time as the unsigned 32-bit value of registers 15 and 16,
    each high word first. *)
Theorem get_odo_cap_coefficients_decodes_block :
  forall (unpack_f : Z -> pyval) (regs : list Z) (s : sensor),
    Forall is_register regs ->
    (17 <= List.length regs)%nat ->
    client_execute (client s) (calls s)
      (ReadHoldingRegisters 0x0100 17 (unit_id s))
    = Some (mkResponse false regs) ->
    fst (get_odo_cap_coefficients unpack_f s)
    = Ok (PyDict
            [ ("K1", unpack_f (u32_at regs 0));
              ("K2", unpack_f (u32_at regs 2));
              ("K3", unpack_f (u32_at regs 4));
              ("K4", unpack_f (u32_at regs 6));
              ("K5", unpack_f (u32_at regs 8));
              ("K6", unpack_f (u32_at regs 10));
              ("K7", unpack_f (u32_at regs 12));
              ("KC", PyInt (reg regs 14));
              ("Cap Replacement Time", PyInt (u32_at regs 15)) ]%string).
Proof.
  intros unpack_f regs s Hregs Hlen Hclient.
  unfold get_odo_cap_coefficients. unfold_m. rewrite Hclient. reduce_run.
  rewrite (decode_cap_coefficients_registers unpack_f regs Hregs Hlen).
  reflexivity.
Qed.

Lemma get_odo_cap_coefficients_decodes_block_witness :
  fst (get_odo_cap_coefficients unpack_f_upper
         (init (answering_client
                  [ 0x3F80; 0; 0; 0; 0xBDCC; 0xCCCD; 0x3C23; 0xD70A;
                    0xBA83; 0x126F; 0x38D1; 0xB717; 0xB727; 0xC5AC;
                    1; 0x5FF6; 0xA680 ]) 1))
  = Ok (PyDict
          [ ("K1", unpack_f_upper 0x3F800000);
            ("K2", unpack_f_upper 0);
            ("K3", unpack_f_upper 0xBDCCCCCD);
            ("K4", unpack_f_upper 0x3C23D70A);
            ("K5", unpack_f_upper 0xBA83126F);
            ("K6", unpack_f_upper 0x38D1B717);
            ("K7", unpack_f_upper 0xB727C5AC);
            ("KC", PyInt 1);
            ("Cap Replacement Time", PyInt 1610000000) ]%string).
Proof.
  apply (get_odo_cap_coefficients_decodes_block unpack_f_upper
           [ 0x3F80; 0; 0; 0; 0xBDCC; 0xCCCD; 0x3C23; 0xD70A;
             0xBA83; 0x126F; 0x38D1; 0xB717; 0xB727; 0xC5AC;
             1; 0x5FF6; 0xA680 ]).
  - repeat (apply Forall_cons; [unfold is_register; lia|]). apply Forall_nil.
  - cbn. lia.
  - reflexivity.
Defined.

(** ** Decoding the baud-rate and parity word *)

Lemma label_of_parity_code parity code :
  parity_code parity = Some code -> label_of parities code = Some parity.
Proof.
  unfold parity_code, parities. cbn [find fst].
  repeat match goal with
         | |- context [String.eqb ?a parity] =>
             destruct (String.eqb_spec a parity);
             [subst parity; cbn; intros H; injection H as <-; reflexivity|]
         end.
  discriminate.
Qed.

Lemma label_of_baud_code baud_rate code :
  baud_code baud_rate = Some code -> label_of baud_rates code = Some baud_rate.
Proof.
  unfold baud_code, baud_rates. cbn [find fst].
  repeat match goal with
         | |- context [Z.eqb ?a baud_rate] =>
             destruct (Z.eqb_spec a baud_rate);
             [subst baud_rate; cbn; intros H; injection H as <-; reflexivity|]
         end.
  discriminate.
Qed.

Lemma label_of_parities_unknown code :
  2 < code -> label_of parities code = None.
Proof.
  intros H. unfold label_of, parities. cbn [map snd list_index].
  repeat match goal with
         | |- context [Z.eqb ?a code] =>
             destruct (Z.eqb_spec a code); [lia|]
         end.
  reflexivity.
Qed.

Lemma label_of_baud_rates_unknown code :
  4 < code -> label_of baud_rates code = None.
Proof.
  intros H. unfold label_of, baud_rates. cbn [map snd list_index].
  repeat match goal with
         | |- context [Z.eqb ?a code] =>
             destruct (Z.eqb_spec a code); [lia|]
         end.
  reflexivity.
Qed.

(** What [get_baud_rate_and_parity] makes of the first register. *)
Lemma get_baud_rate_and_parity_run w rest s :
  is_register w -> Forall is_register rest ->
  client_execute (client s) (calls s)
    (ReadHoldingRegisters 0x0001 1 (unit_id s))
  = Some (mkResponse false (w :: rest)) ->
  fst (get_baud_rate_and_parity s)
  = match label_of parities (Z.shiftr w 8),
          label_of baud_rates (Z.land w 255) with
    | Some parity, Some baud_rate =>
        Ok (PyDict [("parity"%string, PyStr parity);
                    ("baud_rate"%string, PyInt baud_rate)])
    | _, _ => Ok PyNone
    end.
Proof.
  intros Hw Hrest Hclient.
  unfold get_baud_rate_and_parity. unfold_m. rewrite Hclient. reduce_run.
  unfold decode, Decoder.fromRegisters. cbn [Struct.pack_nH].
  rewrite (pack_H_in_range w Hw), (pack_nH_registers rest Hrest).
  cbn [app Decoder.bind Decoder.decode_8bit_uint Decoder.take Decoder.ret
       Decoder.payload Decoder.pointer option_map fst snd Nat.add Nat.sub
       slice skipn firstn Struct.unpack_B].
  destruct (label_of parities (Z.shiftr w 8)); [|reflexivity].
  destruct (label_of baud_rates (Z.land w 255)); reflexivity.
Qed.

(** X8.  [get_baud_rate_and_parity] reads the parity code from the high
    byte and the baud code from the low byte of the first register.  It
    returns the two labels whose codes those are; when either byte is a
    code of no label (a high byte above 2, a low byte above 4) it returns
    [None]. *)
Theorem get_baud_rate_and_parity_decodes_word :
  forall (w : Z) (rest : list Z) (s : sensor),
    is_register w -> Forall is_register rest ->
    client_execute (client s) (calls s)
      (ReadHoldingRegisters 0x0001 1 (unit_id s))
    = Some (mkResponse false (w :: rest)) ->
    (forall parity baud_rate,
        parity_code parity = Some (Z.shiftr w 8) ->
        baud_code baud_rate = Some (Z.land w 255) ->
        fst (get_baud_rate_and_parity s)
        = Ok (PyDict [("parity"%string, PyStr parity);
                      ("baud_rate"%string, PyInt baud_rate)])) /\
    (2 < Z.shiftr w 8 \/ 4 < Z.land w 255 ->
     fst (get_baud_rate_and_parity s) = Ok PyNone).
Proof.
  intros w rest s Hw Hrest Hclient.
  rewrite (get_baud_rate_and_parity_run w rest s Hw Hrest Hclient). split.
  - intros parity baud_rate Hp Hb.
    rewrite (label_of_parity_code _ _ Hp), (label_of_baud_code _ _ Hb).
    reflexivity.
  - intros [H | H].
    + rewrite (label_of_parities_unknown _ H). reflexivity.
    + rewrite (label_of_baud_rates_unknown _ H).
      destruct (label_of parities (Z.shiftr w 8)); reflexivity.
Qed.

Lemma get_baud_rate_and_parity_decodes_word_witness :
  fst (get_baud_rate_and_parity (init (answering_client [0x0104]) 1))
  = Ok (PyDict [("parity"%string, PyStr "odd");
                ("baud_rate"%string, PyInt 115200)]) /\
  fst (get_baud_rate_and_parity (init (answering_client [0x0305]) 1))
  = Ok PyNone.
Proof.
  split.
  - destruct (get_baud_rate_and_parity_decodes_word 0x0104 []
                (init (answering_client [0x0104]) 1)) as [H _].
    + unfold is_register. lia.
    + apply Forall_nil.
    + reflexivity.
    + apply H; reflexivity.
  - destruct (get_baud_rate_and_parity_decodes_word 0x0305 []
                (init (answering_client [0x0305]) 1)) as [_ H].
    + unfold is_register. lia.
    + apply Forall_nil.
    + reflexivity.
    + apply H. left. cbn. lia.
Defined.

(** ** Requests on the bus *)

(** X9.  Whatever the device does and whatever the arguments are, a
    method call only appends to the calls made on the client, puts at
    most one request on the bus, addresses it to the sensor's own unit
    id, and leaves the unit id and the client of the sensor unchanged. *)
Theorem every_method_issues_at_most_one_request :
  forall (pack_f : pyval -> option Z) (unpack_f : Z -> pyval)
         (op : operation) (s : sensor),
  exists new,
    calls (snd (run pack_f unpack_f op s)) = calls s ++ new /\
    (List.length (filter is_request new) <= 1)%nat /\
    Forall (fun c => slave_of c = None \/ slave_of c = Some (unit_id s)) new /\
    unit_id (snd (run pack_f unpack_f op s)) = unit_id s /\
    client (snd (run pack_f unpack_f op s)) = client s.
Proof.
  intros pack_f unpack_f op s.
  destruct op; run_method;
    (first [ exists []; split; [symmetry; apply app_nil_r|]
           | eexists; split; [reflexivity|]
           | eexists; split; [rewrite <- app_assoc; reflexivity|] ]);
    (split; [cbn; lia|]);
    (split; [repeat (apply Forall_cons; [cbn; auto|]); apply Forall_nil|]);
    split; reflexivity.
Qed.

(** ** Exceptions *)

Lemma pack_failure_kind v :
  pack_failure v = StructError \/ pack_failure v = OverflowError.
Proof. destruct v; cbn; auto. Qed.

Lemma refusal_kind k v :
  refusal k v = StructError \/ refusal k v = OverflowError.
Proof.
  unfold refusal. destruct (String.eqb k "KC");
    [left; reflexivity | apply pack_failure_kind].
Qed.

Lemma calibration_error_kind pack_f t values :
  calibration_error pack_f t values = StructError
  \/ calibration_error pack_f t values = OverflowError.
Proof.
  unfold calibration_error.
  destruct (Builder.add_32bit_uint t Builder.empty); [|left; reflexivity].
  induction values as [|v values IH]; [left; reflexivity|].
  cbn [floats_error]. destruct (pack_f v);
    [exact IH | apply pack_failure_kind].
Qed.

(** Without float arguments only the calibration time can be refused. *)
Lemma calibration_error_nil pack_f t :
  calibration_error pack_f t [] = StructError.
Proof.
  unfold calibration_error.
  destruct (Builder.add_32bit_uint t Builder.empty); reflexivity.
Qed.

Lemma add_coefficients_exn pack_f keys coefficients :
  forall b e,
    add_coefficients pack_f keys coefficients b = Exc e ->
    e = StructError \/ e = OverflowError \/ exists k, e = KeyError k.
Proof.
  induction keys as [|k keys IH]; intros b e H; [discriminate H|].
  cbn [add_coefficients] in H.
  destruct (dict_get k coefficients) as [v|].
  - destruct (if String.eqb k "KC" then Builder.add_16bit_uint v b
              else Builder.add_32bit_float pack_f v b) as [b'|].
    + apply (IH b' e H).
    + assert (E : e = refusal k v) by congruence. subst e.
      destruct (refusal_kind k v) as [-> | ->]; auto.
  - right. right. exists k. congruence.
Qed.

(** X10.  The exceptions a caller can see are bounded per method: the
    seven dictionary and serial reads, the two factory resets, [connect]
    and [disconnect] never raise; [set_baud_rate_and_parity] raises
    [ValueError] only; [perform_odo_zero_calibration] raises only the
    builder's [struct.error]; the µS/cm and salinity calibrations raise
    only [struct.error] or, for a float too large for binary32,
    [OverflowError]; the remaining methods raise only what [may_raise]
    lists for them, [OverflowError] included wherever a float is packed
    outside a [try]. *)
Theorem raised_exceptions_are_bounded :
  forall (pack_f : pyval -> option Z) (unpack_f : Z -> pyval)
         (op : operation) (s : sensor) (e : exn),
    fst (run pack_f unpack_f op s) = Exc e ->
    may_raise op e = true.
Proof.
  intros pack_f unpack_f op s e.
  destruct op; run_method; intros H;
    first [ discriminate H
          | injection H as <-; reflexivity
          | injection H as <-; rewrite calibration_error_nil; reflexivity
          | injection H as <-;
            match goal with
            | |- context [calibration_error ?p ?t ?vs] =>
                destruct (calibration_error_kind p t vs) as [-> | ->];
                reflexivity
            | |- context [pack_failure ?v] =>
                destruct (pack_failure_kind v) as [-> | ->]; reflexivity
            | E : add_coefficients _ _ _ _ = Exc _ |- _ =>
                destruct (add_coefficients_exn _ _ _ _ _ E)
                  as [-> | [-> | [k ->]]]; reflexivity
            end ].
Qed.

Lemma raised_exceptions_are_bounded_witness :
  fst (run pack_f_example unpack_f_upper
         (perform_us_cm_calibration_ (PyInt 1610000000)
                                     (PyFloat 0x48078287F49C4A1D))
         (init rejecting_client 1))
  = Exc OverflowError /\
  may_raise (perform_us_cm_calibration_ (PyInt 1610000000)
                                        (PyFloat 0x48078287F49C4A1D))
            OverflowError = true.
Proof.
  split; [reflexivity|].
  apply (raised_exceptions_are_bounded pack_f_example unpack_f_upper
           (perform_us_cm_calibration_ (PyInt 1610000000)
                                       (PyFloat 0x48078287F49C4A1D))
           (init rejecting_client 1)).
  reflexivity.
Defined.



(** ** Arguments the builder refuses *)

Lemma add_floats_some pack_f values : forall b b',
  add_floats pack_f values b = Some b' ->
  forallb (packs_float pack_f) values = true.
Proof.
  induction values as [|v values IH]; intros b b' H; [reflexivity|].
  cbn [add_floats forallb] in *. unfold Builder.add_32bit_float in H.
  unfold packs_float at 1.
  destruct (pack_f v) as [bits|]; [|discriminate H].
  cbn [option_map andb] in *. apply (IH _ _ H).
Qed.

Lemma calibration_builder_some pack_f t values b :
  calibration_builder pack_f t values = Some b ->
  packs_time t = true /\ forallb (packs_float pack_f) values = true.
Proof.
  unfold calibration_builder, packs_time, Builder.add_32bit_uint,
    Struct.pack_I.
  destruct (Struct.as_int t) as [n|]; [|discriminate].
  destruct ((0 <=? n) && (n <=? 4294967295)); [|discriminate].
  cbn [option_map]. intros H. split; [reflexivity|].
  apply (add_floats_some pack_f values _ b H).
Qed.

Lemma add_coefficients_ok pack_f coefficients keys : forall b b',
  add_coefficients pack_f keys coefficients b = Ok b' ->
  forallb (fun key => match dict_get key coefficients with
                      | Some value => encodable pack_f key value
                      | None => false
                      end) keys = true.
Proof.
  induction keys as [|k keys IH]; intros b b' H; [reflexivity|].
  cbn [add_coefficients forallb] in *.
  destruct (dict_get k coefficients) as [v|]; [|discriminate H].
  unfold encodable.
  destruct (String.eqb k "KC").
  - unfold Builder.add_16bit_uint, Struct.pack_H in H.
    destruct (Struct.as_int v) as [n|]; [|discriminate H].
    destruct ((0 <=? n) && (n <=? 65535)); [|discriminate H].
    cbn [option_map andb] in *. apply (IH _ _ H).
  - unfold Builder.add_32bit_float in H.
    destruct (pack_f v) as [bits|]; [|discriminate H].
    cbn [option_map andb] in *. apply (IH _ _ H).
Qed.

(** A payload was built although the arguments are not accepted. *)
Ltac builder_refused pack_f Hacc :=
  exfalso;
  match goal with
  | E : calibration_builder pack_f ?t ?vs = Some ?b |- _ =>
      let H1 := fresh in
      let H2 := fresh in
      destruct (calibration_builder_some pack_f t vs b E) as [H1 H2];
      cbn [forallb] in H2; rewrite ?andb_true_r in H2;
      repeat (apply andb_true_iff in H2;
              let H3 := fresh in destruct H2 as [H3 H2];
              rewrite H3 in Hacc);
      rewrite H1 in Hacc; try rewrite H2 in Hacc; discriminate Hacc
  | E : add_coefficients pack_f _ ?c _ = Ok ?b |- _ =>
      unfold supplies_all in Hacc;
      rewrite (add_coefficients_ok pack_f c _ _ _ E) in Hacc;
      discriminate Hacc
  end.

(** X12.  A block-writing method given arguments its builder refuses (a
    calibration time that is not an integer in 0 .. 2^32 - 1, a value
    [struct] cannot pack as a float, a missing coefficient or a KC that
    is not a 16-bit integer) raises and puts no request on the bus: the
    only call it may have made is the [connect] of the two calibrations
    that start with one. *)
Theorem refused_arguments_send_nothing :
  forall (pack_f : pyval -> option Z) (unpack_f : Z -> pyval)
         (op : operation) (s : sensor) (address : Z) (n : nat),
    block_write op = Some (address, n) ->
    accepted pack_f op = false ->
    (exists e, fst (run pack_f unpack_f op s) = Exc e) /\
    calls (snd (run pack_f unpack_f op s)) = calls s ++ preamble op.
Proof.
  intros pack_f unpack_f op s address n Hw Hacc.
  destruct op; try discriminate Hw; clear Hw;
    cbn [accepted uses_connect preamble] in *;
    autounfold with methods; unfold Builder.add_32bit_float; unfold_m;
    try (unfold packs_float in Hacc;
         match type of Hacc with
         | match pack_f ?v with _ => _ end = false =>
             destruct (pack_f v); [discriminate Hacc | cbn [option_map]]
         end);
    split_run;
    try builder_refused pack_f Hacc;
    (split; [eexists; reflexivity
            | first [symmetry; apply app_nil_r | reflexivity]]).
Qed.

Lemma refused_arguments_send_nothing_witness :
  (exists e,
      fst (run pack_f_upper unpack_f_upper
             (perform_odo_zero_calibration_ (PyInt (-1)))
             (init (answering_client []) 1)) = Exc e) /\
  calls (snd (run pack_f_upper unpack_f_upper
                  (perform_odo_zero_calibration_ (PyInt (-1)))
                  (init (answering_client []) 1)))
  = calls (init (answering_client []) 1)
    ++ preamble (perform_odo_zero_calibration_ (PyInt (-1))).
Proof.
  apply (refused_arguments_send_nothing pack_f_upper unpack_f_upper
           (perform_odo_zero_calibration_ (PyInt (-1)))
           (init (answering_client []) 1) 0x0220 2%nat);
    reflexivity.
Defined.

(** ** The registers of a calibration payload *)

Lemma chunk2_app n : forall buffer rest,
  List.length buffer = (2 * n)%nat ->
  Builder.chunk2 (buffer ++ rest)
  = Builder.chunk2 buffer ++ Builder.chunk2 rest.
Proof.
  induction n as [|n IH]; intros buffer rest H.
  - destruct buffer; [reflexivity | discriminate H].
  - destruct buffer as [|a [|b buffer]]; cbn in H; try lia.
    cbn [app Builder.chunk2]. f_equal. apply IH. lia.
Qed.

Lemma to_registers_snoc b bits n :
  List.length (Builder.encode b) = (2 * n)%nat ->
  0 <= bits < 4294967296 ->
  Builder.to_registers (b ++ [Struct.bytes_of_u32 bits])
  = Builder.to_registers b ++ halves_of bits.
Proof.
  intros Hb Hbits.
  pose proof (to_registers_of_pattern bits Hbits) as E.
  unfold Builder.to_registers, Builder.build in *.
  rewrite encode_snoc, (chunk2_app n _ _ Hb), map_app.
  unfold Builder.encode in E. cbn [List.concat] in E.
  rewrite app_nil_r in E. rewrite E. reflexivity.
Qed.

Lemma add_floats_registers pack_f values patterns :
  packed_as pack_f values patterns ->
  forall b n,
    List.length (Builder.encode b) = (2 * n)%nat ->
    exists b',
      add_floats pack_f values b = Some b' /\
      Builder.to_registers b'
      = Builder.to_registers b ++ flat_map halves_of patterns.
Proof.
  induction 1 as [|v bits values patterns [Hpack Hbits] _ IH];
    intros b n Hb.
  - exists b. split; [reflexivity|]. cbn. rewrite app_nil_r. reflexivity.
  - cbn [add_floats]. unfold Builder.add_32bit_float. rewrite Hpack.
    cbn [option_map].
    destruct (IH (b ++ [Struct.bytes_of_u32 bits]) (n + 2)%nat)
      as (b' & Hb' & Hregs).
    + rewrite encode_snoc, length_app, Hb. cbn. lia.
    + exists b'. split; [exact Hb'|].
      rewrite Hregs, (to_registers_snoc b bits n Hb Hbits).
      cbn [flat_map]. rewrite <- app_assoc. reflexivity.
Qed.

Lemma time_registers n :
  Builder.to_registers
    [[Z.shiftr n 24; Z.land (Z.shiftr n 16) 255;
      Z.land (Z.shiftr n 8) 255; Z.land n 255]]
  = halves_of n.
Proof.
  unfold Builder.to_registers, Builder.build, Builder.encode, halves_of.
  cbn [List.concat app Builder.chunk2 map Builder.word_of Struct.unpack_H].
  rewrite low_word.
  replace (Z.shiftr n 24) with (Z.shiftr (Z.shiftr n 16) 8)
    by (rewrite Z.shiftr_shiftr by lia; reflexivity).
  rewrite word_of_its_bytes. reflexivity.
Qed.

(** The registers of a calibration payload: the time as two registers,
    then each float as two registers, always high word first. *)
Lemma calibration_builder_registers pack_f t n values patterns :
  Struct.as_int t = Some n ->
  0 <= n <= 4294967295 ->
  packed_as pack_f values patterns ->
  exists b,
    calibration_builder pack_f t values = Some b /\
    Builder.to_registers b = halves_of n ++ flat_map halves_of patterns.
Proof.
  intros Ht [Hlo Hhi] Hvalues.
  unfold calibration_builder, Builder.add_32bit_uint, Struct.pack_I.
  rewrite Ht.
  apply Z.leb_le in Hlo. apply Z.leb_le in Hhi. rewrite Hlo, Hhi.
  cbn [option_map andb Builder.empty app].
  destruct (add_floats_registers pack_f values patterns Hvalues
              [[Z.shiftr n 24; Z.land (Z.shiftr n 16) 255;
                Z.land (Z.shiftr n 8) 255; Z.land n 255]] 2%nat
              eq_refl) as (b & Hb & Hregs).
  exists b. split; [exact Hb|]. rewrite Hregs, time_registers. reflexivity.
Qed.

(** X13.  Each of the seven calibration methods writes, at its address,
    the calibration time as two registers followed by each float as two
    registers, every 32-bit value high word first, whether it hands the
    client byte chunks or integers. *)
Theorem calibration_payload_word_order :
  forall (pack_f : pyval -> option Z) (unpack_f : Z -> pyval)
         (op : operation) (s : sensor) (address : Z) (t : pyval)
         (values : list pyval) (n : Z) (patterns : list Z),
    calibration_args op = Some (address, t, values) ->
    Struct.as_int t = Some n ->
    0 <= n <= 4294967295 ->
    packed_as pack_f values patterns ->
    (uses_connect op = true ->
     client_connect (client s) (calls s) = Some true) ->
    exists payload skip_encode,
      calls (snd (run pack_f unpack_f op s))
      = calls s ++ preamble op
                ++ [WriteRegisters address payload skip_encode (unit_id s)]
      /\ registers_of_values payload
         = halves_of n ++ flat_map halves_of patterns.
Proof.
  intros pack_f unpack_f op s address t values n patterns
         Hargs Ht Hn Hvalues Hconnect.
  destruct (calibration_builder_registers pack_f t n values patterns
              Ht Hn Hvalues) as (b & Hb & Hregs).
  destruct op; try discriminate Hargs; cbn in Hargs;
    injection Hargs as <- <- <-;
    cbn [uses_connect preamble app] in *;
    autounfold with methods; unfold_m;
    try rewrite (Hconnect eq_refl);
    rewrite Hb; split_run;
    (do 2 eexists; split;
     [ rewrite <- ?app_assoc; reflexivity | exact Hregs ]).
Qed.

Lemma calibration_payload_word_order_witness :
  exists payload skip_encode,
    calls (snd (run pack_f_upper unpack_f_upper
                    (perform_odo_percent_saturation_calibration_
                       (PyInt 1610000000) (PyFloat 0x4087C00000000000))
                    (init (answering_client []) 1)))
    = calls (init (answering_client []) 1)
      ++ preamble (perform_odo_percent_saturation_calibration_
                     (PyInt 1610000000) (PyFloat 0x4087C00000000000))
      ++ [WriteRegisters 0x0230 payload skip_encode
                         (unit_id (init (answering_client []) 1))]
    /\ registers_of_values payload
       = halves_of 1610000000 ++ flat_map halves_of [0x4087C000].
Proof.
  apply (calibration_payload_word_order pack_f_upper unpack_f_upper
           (perform_odo_percent_saturation_calibration_
              (PyInt 1610000000) (PyFloat 0x4087C00000000000))
           (init (answering_client []) 1) 0x0230 (PyInt 1610000000)
           [PyFloat 0x4087C00000000000] 1610000000 [0x4087C000]).
  - reflexivity.
  - reflexivity.
  - lia.
  - apply Forall2_cons; [split; [reflexivity | lia] | apply Forall2_nil].
  - discriminate.
Defined.

(** ** User coefficients *)

Lemma set_user_float_sends pack_f address msg value bits s :
  pack_f value = Some bits ->
  0 <= bits < 4294967296 ->
  calls (snd (set_user_float pack_f address msg value s))
  = calls s ++ [WriteRegisters address (Words (halves_of bits)) false
                               (unit_id s)].
Proof.
  intros Hpack Hbits.
  unfold set_user_float, Builder.add_32bit_float.
  rewrite Hpack. cbn [option_map Builder.empty app].
  unfold_m. rewrite (to_registers_of_pattern bits Hbits).
  split_run; reflexivity.
Qed.

Lemma get_user_float_reads unpack_f address msg bits s :
  0 <= bits < 4294967296 ->
  client_execute (client s) (calls s)
    (ReadHoldingRegisters address 2 (unit_id s))
  = Some (mkResponse false (halves_of bits)) ->
  fst (get_user_float unpack_f address msg s) = Ok (unpack_f bits).
Proof.
  intros Hbits Hread.
  unfold get_user_float. unfold_m. rewrite Hread. reduce_run.
  pose proof (decode_float_registers unpack_f (Z.shiftr bits 16)
                (Z.land bits 65535)) as E.
  unfold is_register in E.
  specialize (E (high_word_range bits Hbits) (low_word_range bits)).
  unfold u32_of in E. rewrite halves in E.
  cbn [decode_field] in E. unfold halves_of. rewrite E. reflexivity.
Qed.

(** X14.  For each of the three user coefficients, the setter sends the
    packed 32-bit pattern of the value as two registers, high word first,
    at the coefficient's address, and the getter, answered with those two
    registers, returns the float of that same pattern: what is read back
    is the value as [struct] rounded it to binary32, with no bit changed
    by the driver. *)
Theorem user_coefficients_read_back :
  forall (pack_f : pyval -> option Z) (unpack_f : Z -> pyval)
         (value : pyval) (bits : Z) (setter getter : operation)
         (address : Z) (s s' : sensor),
    In (setter, getter, address) (user_coefficient_methods value) ->
    pack_f value = Some bits ->
    0 <= bits < 4294967296 ->
    calls (snd (run pack_f unpack_f setter s))
    = calls s ++ [WriteRegisters address (Words (halves_of bits)) false
                                 (unit_id s)]
    /\ (client_execute (client s') (calls s')
          (ReadHoldingRegisters address 2 (unit_id s'))
        = Some (mkResponse false (halves_of bits)) ->
        fst (run pack_f unpack_f getter s') = Ok (unpack_f bits)).
Proof.
  intros pack_f unpack_f value bits setter getter address s s'
         Hin Hpack Hbits.
  cbn [user_coefficient_methods In] in Hin.
  destruct Hin as [E | [E | [E | []]]]; injection E as <- <- <-;
    (split;
     [ apply set_user_float_sends; assumption
     | apply get_user_float_reads; assumption ]).
Qed.

Lemma user_coefficients_read_back_witness :
  calls (snd (run pack_f_upper unpack_f_upper
                  (set_user_temperature_reference_
                     (PyFloat 0x4039000000000000))
                  (init (answering_client []) 1)))
  = calls (init (answering_client []) 1)
    ++ [WriteRegisters 0x0502 (Words (halves_of 0x40390000)) false
                       (unit_id (init (answering_client []) 1))]
  /\ (client_execute
        (client (init (answering_client (halves_of 0x40390000)) 1))
        (calls (init (answering_client (halves_of 0x40390000)) 1))
        (ReadHoldingRegisters 0x0502 2
           (unit_id (init (answering_client (halves_of 0x40390000)) 1)))
      = Some (mkResponse false (halves_of 0x40390000)) ->
      fst (run pack_f_upper unpack_f_upper get_user_temperature_reference_
             (init (answering_client (halves_of 0x40390000)) 1))
      = Ok (unpack_f_upper 0x40390000)).
Proof.
  apply (user_coefficients_read_back pack_f_upper unpack_f_upper
           (PyFloat 0x4039000000000000) 0x40390000
           (set_user_temperature_reference_ (PyFloat 0x4039000000000000))
           get_user_temperature_reference_ 0x0502).
  - cbn. tauto.
  - reflexivity.
  - lia.
Defined.

Lemma pattern_registers_round_trip_witness :
  decode (Builder.to_registers [Struct.bytes_of_u32 0x7FC00001])
         Decoder.decode_32bit_pattern
  = Some 0x7FC00001 /\
  Builder.to_registers [Struct.bytes_of_u32 0x80000000] = [0x8000; 0x0000].
Proof.
  destruct pattern_registers_round_trip as [Hbits Hregs].
  split.
  - apply Hbits. lia.
  - apply (Hregs 0x8000 0x0000 0x80000000).
    + unfold is_register. lia.
    + unfold is_register. lia.
    + reflexivity.
Defined.

(** ** Writing the cap coefficients and reading them back *)

Lemma halves_of_registers bits :
  0 <= bits < 4294967296 -> Forall is_register (halves_of bits).
Proof.
  intros H. unfold halves_of, is_register.
  apply Forall_cons; [apply high_word_range; exact H|].
  apply Forall_cons; [apply low_word_range | apply Forall_nil].
Qed.

Lemma u32_of_halves bits : u32_of (Z.shiftr bits 16) (Z.land bits 65535) = bits.
Proof. unfold u32_of. apply halves. Qed.

(** X16.  [set_odo_cap_coefficients] writes K1 to K7 and the cap
    replacement time as packed floats and KC as one 16-bit register, in
    that order.  [get_odo_cap_coefficients], answered with the registers
    so written, returns K1 to K7 as the floats of the packed patterns and
    KC as the integer written, but decodes the cap replacement time as an
    unsigned integer: it returns the binary32 pattern of the time that
    was written, as an integer. *)
Theorem cap_coefficients_read_back :
  forall (pack_f : pyval -> option Z) (unpack_f : Z -> pyval)
         (coefficients : dict) (ks : list pyval) (bs : list Z)
         (kc_value time_value : pyval) (kc bt : Z) (s s' : sensor),
    map (fun key => dict_get key coefficients) float_keys = map Some ks ->
    packed_as pack_f ks bs ->
    dict_get "KC" coefficients = Some kc_value ->
    Struct.as_int kc_value = Some kc ->
    is_register kc ->
    dict_get "Cap Replacement Time" coefficients = Some time_value ->
    pack_f time_value = Some bt ->
    0 <= bt < 4294967296 ->
    exists payload,
      calls (snd (set_odo_cap_coefficients pack_f coefficients s))
      = calls s ++ [WriteRegisters 0x0100 payload true (unit_id s)] /\
      registers_of_values payload
      = flat_map halves_of bs ++ [kc] ++ halves_of bt /\
      (client_execute (client s') (calls s')
         (ReadHoldingRegisters 0x0100 17 (unit_id s'))
       = Some (mkResponse false (registers_of_values payload)) ->
       fst (get_odo_cap_coefficients unpack_f s')
       = Ok (PyDict (combine float_keys (map unpack_f bs)
                     ++ [ ("KC", PyInt kc);
                          ("Cap Replacement Time", PyInt bt) ]%string))).
Proof.
  intros pack_f unpack_f coefficients ks bs kc_value time_value kc bt s s'
         Hks Hpacked Hkc Hint Hrange Htime Hpack Hbt.
  do 8 (destruct ks as [|? ks]; try discriminate Hks).
  cbn [float_keys map] in Hks.
  injection Hks as E1 E2 E3 E4 E5 E6 E7.
  unfold packed_as in Hpacked.
  repeat match goal with
         | H : Forall2 _ (_ :: _) _ |- _ => inversion H; clear H; subst
         | H : Forall2 _ [] _ |- _ => inversion H; clear H; subst
         | H : _ /\ _ |- _ => destruct H
         end.
  assert (Hb : add_coefficients pack_f cap_coefficient_keys coefficients
                 Builder.empty
               = Ok [ Struct.bytes_of_u32 y; Struct.bytes_of_u32 y0;
                      Struct.bytes_of_u32 y1; Struct.bytes_of_u32 y2;
                      Struct.bytes_of_u32 y3; Struct.bytes_of_u32 y4;
                      Struct.bytes_of_u32 y5;
                      [Z.shiftr kc 8; Z.land kc 255];
                      Struct.bytes_of_u32 bt ]).
  { unfold cap_coefficient_keys, Builder.empty.
    cbn [add_coefficients String.eqb Ascii.eqb Bool.eqb].
    unfold Builder.add_32bit_float, Builder.add_16bit_uint.
    repeat match goal with
           | H : dict_get ?k coefficients = Some _
             |- context [dict_get ?k coefficients] => rewrite H
           | H : pack_f ?v = Some _ |- context [pack_f ?v] => rewrite H
           | |- _ => rewrite Hint
           | |- _ => rewrite (pack_H_in_range kc Hrange)
           | |- _ => progress cbn [option_map app]
           end.
    reflexivity. }
  eexists. rewrite set_odo_cap_coefficients_run, Hb.
  split; [reflexivity|].
  assert (Hregs : registers_of_values
                    (Chunks
                       (Builder.build
                          [ Struct.bytes_of_u32 y; Struct.bytes_of_u32 y0;
                            Struct.bytes_of_u32 y1; Struct.bytes_of_u32 y2;
                            Struct.bytes_of_u32 y3; Struct.bytes_of_u32 y4;
                            Struct.bytes_of_u32 y5;
                            [Z.shiftr kc 8; Z.land kc 255];
                            Struct.bytes_of_u32 bt ]))
                  = flat_map halves_of [y; y0; y1; y2; y3; y4; y5]
                    ++ [kc] ++ halves_of bt).
  { unfold registers_of_values, Builder.build, Builder.encode,
      Struct.bytes_of_u32, halves_of.
    cbn [List.concat app Builder.chunk2 map Builder.word_of Struct.unpack_H
         flat_map].
    rewrite !high_word by lia. rewrite !low_word.
    rewrite word_of_its_bytes. reflexivity. }
  split; [exact Hregs|].
  rewrite Hregs. intros Hread.
  unfold get_odo_cap_coefficients. unfold_m. rewrite Hread. reduce_run.
  rewrite decode_cap_coefficients_registers.
  - unfold u32_at, reg, halves_of.
    cbn [flat_map app nth combine float_keys map].
    rewrite !u32_of_halves. reflexivity.
  - cbn [flat_map].
    repeat first [ apply halves_of_registers; lia
                 | apply Forall_nil
                 | apply Forall_app; split
                 | apply Forall_cons; [exact Hrange|] ].
  - cbn. lia.
Qed.

Lemma cap_coefficients_read_back_witness :
  exists payload,
    calls (snd (set_odo_cap_coefficients pack_f_example example_coefficients
                  (init (answering_client []) 1)))
    = [WriteRegisters 0x0100 payload true 1] /\
    registers_of_values payload = example_coefficient_registers /\
    fst (get_odo_cap_coefficients unpack_f_exact
           (init (answering_client example_coefficient_registers) 1))
    = Ok (PyDict
            [ ("K1", PyFloat 0x3FF0000000000000);
              ("K2", PyFloat 0x0000000000000000);
              ("K3", PyFloat 0xBFB99999A0000000);
              ("K4", PyFloat 0x3F847AE140000000);
              ("K5", PyFloat 0xBF50624DE0000000);
              ("K6", PyFloat 0x3F1A36E2E0000000);
              ("K7", PyFloat 0xBEE4F8B580000000);
              ("KC", PyInt 1);
              ("Cap Replacement Time", PyInt 0x4EBFED4D) ]%string).
Proof.
  destruct (cap_coefficients_read_back pack_f_example unpack_f_exact
              example_coefficients
              [ PyFloat 0x3FF0000000000000; PyFloat 0x0000000000000000;
                PyFloat 0xBFB999999999999A; PyFloat 0x3F847AE147AE147B;
                PyFloat 0xBF50624DD2F1A9FC; PyFloat 0x3F1A36E2EB1C432D;
                PyFloat 0xBEE4F8B588E368F1 ]
              [ 0x3F800000; 0x00000000; 0xBDCCCCCD; 0x3C23D70A; 0xBA83126F;
                0x38D1B717; 0xB727C5AC ]
              (PyInt 1) (PyInt 1610000000) 1 0x4EBFED4D
              (init (answering_client []) 1)
              (init (answering_client example_coefficient_registers) 1))
    as (payload & Hcalls & Hregs & Hread).
  - reflexivity.
  - repeat (apply Forall2_cons; [split; [reflexivity | lia]|]).
    apply Forall2_nil.
  - reflexivity.
  - reflexivity.
  - unfold is_register. lia.
  - reflexivity.
  - reflexivity.
  - lia.
  - exists payload. split; [exact Hcalls|]. split; [exact Hregs|].
    rewrite Hread; [reflexivity|].
    rewrite Hregs. reflexivity.
Defined.

(** ** The example script *)

(** X17.  The example script never lets an exception escape.  When
    [connect] returns true it makes exactly four calls on the client, in
    this order: the connect, the factory-reset write of 1 to register
    0x0200, the read of three registers at 0x0210, and the close, whatever
    the device answers to the write and to the read.  When [connect] does
    not return true it stops after the connect, without closing. *)
Theorem example_main_calls :
  forall (unpack_f : Z -> pyval) (c : ModbusClient),
    fst (example_main unpack_f c) = Ok tt /\
    calls (snd (example_main unpack_f c))
    = match client_connect c [] with
      | Some true =>
          [ Connect; WriteRegister 0x0200 0x0001 1;
            ReadHoldingRegisters 0x0210 3 1; Close ]
      | _ => [Connect]
      end.
Proof.
  intros unpack_f c.
  unfold example_main, try_finally, init.
  autounfold with methods. unfold_m. reduce_run.
  destruct (client_connect c []) as [[|]|]; reduce_run;
    [|split; reflexivity|split; reflexivity].
  split_run; split; reflexivity.
Qed.

(** ** The first coefficient that stops the loop *)

Lemma add_coefficients_stops pack_f coefficients prefix key suffix :
  (forall k, In k prefix ->
             exists v, dict_get k coefficients = Some v
                       /\ encodable pack_f k v = true) ->
  forall b, exists b',
    add_coefficients pack_f (prefix ++ key :: suffix) coefficients b
    = add_coefficients pack_f (key :: suffix) coefficients b'.
Proof.
  induction prefix as [|k prefix IH]; intros Hprefix b;
    [exists b; reflexivity|].
  cbn [app add_coefficients].
  destruct (Hprefix k (or_introl eq_refl)) as (v & Hv & Henc).
  rewrite Hv. unfold encodable in Henc.
  destruct (String.eqb k "KC").
  - unfold Builder.add_16bit_uint, Struct.pack_H.
    destruct (Struct.as_int v) as [n|]; [|discriminate Henc].
    rewrite Henc. cbn [option_map].
    apply IH. intros k' Hk'. apply Hprefix. right. exact Hk'.
  - unfold Builder.add_32bit_float.
    destruct (pack_f v) as [bits|]; [|discriminate Henc].
    cbn [option_map].
    apply IH. intros k' Hk'. apply Hprefix. right. exact Hk'.
Qed.

(** X18.  [set_odo_cap_coefficients] takes the nine keys in the order K1
    to K7, KC, Cap Replacement Time and stops at the first one it cannot
    use: when every earlier key has an encodable value, a missing key
    makes it raise [KeyError] of that very key, and a value the builder
    refuses makes it raise what [struct.pack] raises for that value,
    [OverflowError] for a float too large for binary32 under a float key
    and [struct.error] otherwise; in both cases the sensor is
    untouched. *)
Theorem set_odo_cap_coefficients_stops_at_first_bad_key :
  forall (pack_f : pyval -> option Z) (coefficients : dict)
         (prefix : list string) (key : string) (suffix : list string)
         (s : sensor),
    cap_coefficient_keys = prefix ++ key :: suffix ->
    (forall k, In k prefix ->
               exists v, dict_get k coefficients = Some v
                         /\ encodable pack_f k v = true) ->
    (dict_get key coefficients = None ->
     set_odo_cap_coefficients pack_f coefficients s
     = (Exc (KeyError key), s)) /\
    (forall v, dict_get key coefficients = Some v ->
               encodable pack_f key v = false ->
               set_odo_cap_coefficients pack_f coefficients s
               = (Exc (if String.eqb key "KC" then StructError
                       else match v with
                            | PyFloat _ => OverflowError
                            | _ => StructError
                            end), s)).
Proof.
  intros pack_f coefficients prefix key suffix s Hkeys Hprefix.
  destruct (add_coefficients_stops pack_f coefficients prefix key suffix
              Hprefix Builder.empty) as (b & Hb).
  rewrite <- Hkeys in Hb. split.
  - intros Hmiss. rewrite set_odo_cap_coefficients_run, Hb.
    cbn [add_coefficients]. rewrite Hmiss. reflexivity.
  - intros v Hv Henc. rewrite set_odo_cap_coefficients_run, Hb.
    cbn [add_coefficients]. rewrite Hv. unfold encodable in Henc.
    unfold refusal, pack_failure.
    destruct (String.eqb key "KC").
    + unfold Builder.add_16bit_uint, Struct.pack_H.
      destruct (Struct.as_int v) as [n|]; [|reflexivity].
      rewrite Henc. reflexivity.
    + unfold Builder.add_32bit_float.
      destruct (pack_f v) as [bits|]; [discriminate Henc | reflexivity].
Qed.

Lemma set_odo_cap_coefficients_stops_at_first_bad_key_witness :
  set_odo_cap_coefficients pack_f_upper coefficients_without_K7
    (init (answering_client []) 1)
  = (Exc (KeyError "K7"), init (answering_client []) 1) /\
  set_odo_cap_coefficients pack_f_example coefficients_with_large_K3
    (init (answering_client []) 1)
  = (Exc OverflowError, init (answering_client []) 1).
Proof.
  split.
  - destruct (set_odo_cap_coefficients_stops_at_first_bad_key pack_f_upper
                coefficients_without_K7
                [ "K1"; "K2"; "K3"; "K4"; "K5"; "K6" ]%string "K7"%string
                [ "KC"; "Cap Replacement Time" ]%string
                (init (answering_client []) 1)) as [H _].
    + reflexivity.
    + intros k Hk. cbn in Hk.
      repeat (destruct Hk as [<- | Hk];
              [eexists; split; reflexivity|]).
      contradiction.
    + apply H. reflexivity.
  - destruct (set_odo_cap_coefficients_stops_at_first_bad_key pack_f_example
                coefficients_with_large_K3
                [ "K1"; "K2" ]%string "K3"%string
                [ "K4"; "K5"; "K6"; "K7"; "KC";
                  "Cap Replacement Time" ]%string
                (init (answering_client []) 1)) as [_ H].
    + reflexivity.
    + intros k Hk. cbn in Hk.
      repeat (destruct Hk as [<- | Hk];
              [eexists; split; reflexivity|]).
      contradiction.
    + apply (H (PyFloat 0x48078287F49C4A1D)); reflexivity.
Defined.

(** ** Reading a user coefficient *)

(** X19.  Each of the three user-coefficient getters, answered without
    error, returns the float of the 32-bit value of the first two
    registers, high word first, and ignores any further register; on an
    answer of fewer than two registers it raises [struct.error], which no
    handler in the method catches. *)
Theorem user_coefficient_getters_decode :
  forall (pack_f : pyval -> option Z) (unpack_f : Z -> pyval)
         (getter : operation) (address : Z) (regs : list Z) (s : sensor),
    In (getter, address) user_coefficient_getters ->
    Forall is_register regs ->
    client_execute (client s) (calls s)
      (ReadHoldingRegisters address 2 (unit_id s))
    = Some (mkResponse false regs) ->
    fst (run pack_f unpack_f getter s)
    = if Nat.leb 2 (List.length regs)
      then Ok (unpack_f (u32_at regs 0))
      else Exc StructError.
Proof.
  intros pack_f unpack_f getter address regs s Hin Hregs Hclient.
  assert (E : forall msg,
             fst (get_user_float unpack_f address msg s)
             = if Nat.leb 2 (List.length regs)
               then Ok (unpack_f (u32_at regs 0))
               else Exc StructError).
  { intros msg. unfold get_user_float. unfold_m. rewrite Hclient.
    reduce_run.
    destruct regs as [|a [|b regs]].
    - reflexivity.
    - cbn [List.length Nat.leb].
      change (decode_32bit_float unpack_f)
        with (decode_field unpack_f F32).
      rewrite (decode_32bit_short unpack_f [a] F32);
        [reflexivity | cbn; lia | left; reflexivity].
    - registers_in_range. cbn [List.length Nat.leb].
      unfold decode, Decoder.fromRegisters. cbn [Struct.pack_nH].
      rewrite (pack_H_in_range a), (pack_H_in_range b) by assumption.
      rewrite (pack_nH_registers regs) by assumption.
      unfold decode_32bit_float, Decoder.decode_32bit_pattern, u32_at, reg,
        u32_of.
      cbn [app Decoder.bind Decoder.decode_32bit_uint Decoder.take
           Decoder.ret Decoder.payload Decoder.pointer option_map fst
           Nat.add Nat.sub slice skipn firstn Struct.unpack_I nth].
      rewrite join_words. reflexivity. }
  cbn [user_coefficient_getters In] in Hin.
  destruct Hin as [H | [H | [H | []]]]; injection H as <- <-; apply E.
Qed.

Lemma user_coefficient_getters_decode_witness :
  fst (run pack_f_upper unpack_f_upper get_user_tds_coefficient_
         (init (answering_client [0x3F26]) 1))
  = Exc StructError.
Proof.
  apply (user_coefficient_getters_decode pack_f_upper unpack_f_upper
           get_user_tds_coefficient_ 0x0500 [0x3F26]
           (init (answering_client [0x3F26]) 1)).
  - cbn. tauto.
  - apply Forall_cons; [unfold is_register; lia | apply Forall_nil].
  - reflexivity.
Defined.

(** ** A short cap-coefficient block *)

Lemma decode_cap_coefficients_short unpack_f regs :
  Forall is_register regs ->
  (List.length regs < 17)%nat ->
  decode regs (decode_cap_coefficients unpack_f) = None.
Proof.
  intros Hregs Hlen.
  unfold decode, Decoder.fromRegisters.
  rewrite (pack_nH_registers regs Hregs).
  unfold decode_cap_coefficients, decode_32bit_float,
    Decoder.decode_32bit_pattern.
  do 17 (destruct regs as [|? regs];
         [ cbn [bytes_of_registers flat_map app Decoder.bind
                Decoder.decode_32bit_uint Decoder.decode_16bit_uint
                Decoder.take Decoder.ret Decoder.payload Decoder.pointer
                option_map fst Nat.add Nat.sub slice skipn firstn
                Struct.unpack_I Struct.unpack_H];
           reflexivity |]).
  cbn in Hlen. lia.
Qed.

(** X20.  [get_odo_cap_coefficients] returns no partial dictionary: when
    the device answers without error but with fewer than 17 registers the
    result is [None]. *)
Theorem get_odo_cap_coefficients_short_answer_is_none :
  forall (unpack_f : Z -> pyval) (regs : list Z) (s : sensor),
    Forall is_register regs ->
    (List.length regs < 17)%nat ->
    client_execute (client s) (calls s)
      (ReadHoldingRegisters 0x0100 17 (unit_id s))
    = Some (mkResponse false regs) ->
    get_odo_cap_coefficients unpack_f s
    = (Ok PyNone, log_call (ReadHoldingRegisters 0x0100 17 (unit_id s)) s).
Proof.
  intros unpack_f regs s Hregs Hlen Hclient.
  unfold get_odo_cap_coefficients. unfold_m. rewrite Hclient. reduce_run.
  rewrite (decode_cap_coefficients_short unpack_f regs Hregs Hlen).
  reflexivity.
Qed.

Lemma get_odo_cap_coefficients_short_answer_is_none_witness :
  get_odo_cap_coefficients unpack_f_upper
    (init (answering_client (repeat 0x3F80 16)) 1)
  = (Ok PyNone,
     log_call (ReadHoldingRegisters 0x0100 17 1)
              (init (answering_client (repeat 0x3F80 16)) 1)).
Proof.
  apply (get_odo_cap_coefficients_short_answer_is_none unpack_f_upper
           (repeat 0x3F80 16)).
  - repeat (apply Forall_cons; [unfold is_register; lia|]). apply Forall_nil.
  - cbn. lia.
  - reflexivity.
Defined.


(** ** The registers each live-snapshot field is decoded from *)

(** Two registers are recovered from their 32-bit value: both enter it. *)
Lemma u32_of_injective a b a' b' :
  is_register a -> is_register b -> is_register a' -> is_register b' ->
  u32_of a b = u32_of a' b' -> a = a' /\ b = b'.
Proof.
  unfold is_register, u32_of. intros Ha Hb Ha' Hb' E. split.
  - rewrite <- (split_high a b), <- (split_high a' b') by lia.
    rewrite E. reflexivity.
  - rewrite <- (split_low a b), <- (split_low a' b') by lia.
    rewrite E. reflexivity.
Qed.

(** What the decoding calls of [get_data] make of a block of at least 24
    registers. *)
Lemma decode_data_fields_block unpack_f regs :
  Forall is_register regs ->
  (24 <= List.length regs)%nat ->
  decode_fields unpack_f regs data_fields []
  = Some [ ("odo_saturation", unpack_f (u32_at regs 0));
           ("odo_concentration", unpack_f (u32_at regs 2));
           ("odo_local_barometer_compensated", unpack_f (u32_at regs 4));
           ("temperature", unpack_f (u32_at regs 8));
           ("ref_temperature", unpack_f (u32_at regs 10));
           ("time_since_boot", PyInt (u32_at regs 12));
           ("conductivity", unpack_f (u32_at regs 14));
           ("specific_conductivity", unpack_f (u32_at regs 16));
           ("salinity", unpack_f (u32_at regs 18));
           ("conductivity _nLF", unpack_f (u32_at regs 20));
           ("total_dissolved_solids", unpack_f (u32_at regs 22)) ]%string.
Proof.
  intros Hregs Hlen.
  do 24 (destruct regs as [|? regs]; [cbn in Hlen; lia|]).
  registers_in_range.
  unfold data_fields, u32_at, reg.
  cbn -[decode decode_field dict_set u32_of].
  rewrite decode_32bit_float_four_registers by assumption.
  rewrite !decode_float_registers, decode_u32_registers by assumption.
  reflexivity.
Qed.

(** C3, as stated, fails: the slices of [get_data] are not all two
    registers wide, and not every register of the block is used: two
    blocks that differ in register 6 decode to the same eleven values,
    even when the 32-bit patterns are kept as they are instead of being
    turned into floats. *)
Lemma live_snapshot_fields_not_all_two_words :
  ~ Forall (fun f => width f = 2%nat) data_fields /\
  decode_fields PyInt
    [ 1; 2; 3; 4; 5; 6; 7; 8; 9; 10; 11; 12; 13; 14; 15; 16; 17; 18; 19;
      20; 21; 22; 23; 24 ] data_fields []
  = decode_fields PyInt
      [ 1; 2; 3; 4; 5; 6; 65535; 8; 9; 10; 11; 12; 13; 14; 15; 16; 17; 18;
        19; 20; 21; 22; 23; 24 ] data_fields [] /\
  decode_fields PyInt
    [ 1; 2; 3; 4; 5; 6; 7; 8; 9; 10; 11; 12; 13; 14; 15; 16; 17; 18; 19;
      20; 21; 22; 23; 24 ] data_fields []
  <> None.
Proof.
  split; [|split].
  - intros H.
    apply Forall_cons_iff in H. destruct H as [_ H].
    apply Forall_cons_iff in H. destruct H as [_ H].
    apply Forall_cons_iff in H. destruct H as [H _].
    discriminate H.
  - reflexivity.
  - vm_compute. discriminate.
Qed.

(** C3, amended.  The eleven slices of [get_data] tile registers 0 to 24
    without gap or overlap; each is two registers wide except that of
    [odo_local_barometer_compensated], which is four wide (4 to 8).
    Every decoding call takes four bytes from its decoder, and every
    field, F32 or U32, is the 32-bit value of the first two registers of
    its slice, high word first, from which both registers can be
    recovered: each register of the block enters exactly one field,
    except registers 6 and 7, which enter none and do not influence the
    decoded result. *)
Theorem live_snapshot_layout :
  forall (unpack_f : Z -> pyval),
    tiles 0 data_fields 24 = true /\
    map width data_fields = [2; 2; 4; 2; 2; 2; 2; 2; 2; 2; 2]%nat /\
    (forall f d v d',
        In f data_fields ->
        decode_field unpack_f (decoded f) d = Some (v, d') ->
        Decoder.pointer d' = (Decoder.pointer d + 4)%nat) /\
    (forall regs,
        Forall is_register regs ->
        (24 <= List.length regs)%nat ->
        decode_fields unpack_f regs data_fields []
        = Some [ ("odo_saturation", unpack_f (u32_at regs 0));
                 ("odo_concentration", unpack_f (u32_at regs 2));
                 ("odo_local_barometer_compensated",
                  unpack_f (u32_at regs 4));
                 ("temperature", unpack_f (u32_at regs 8));
                 ("ref_temperature", unpack_f (u32_at regs 10));
                 ("time_since_boot", PyInt (u32_at regs 12));
                 ("conductivity", unpack_f (u32_at regs 14));
                 ("specific_conductivity", unpack_f (u32_at regs 16));
                 ("salinity", unpack_f (u32_at regs 18));
                 ("conductivity _nLF", unpack_f (u32_at regs 20));
                 ("total_dissolved_solids", unpack_f (u32_at regs 22))
               ]%string) /\
    (forall regs regs' i,
        Forall is_register regs -> Forall is_register regs' ->
        (S i < List.length regs)%nat -> (S i < List.length regs')%nat ->
        u32_at regs i = u32_at regs' i ->
        reg regs i = reg regs' i /\ reg regs (S i) = reg regs' (S i)) /\
    (forall p q x y x' y',
        List.length p = 6%nat ->
        0 <= x <= 65535 -> 0 <= y <= 65535 ->
        0 <= x' <= 65535 -> 0 <= y' <= 65535 ->
        decode_fields unpack_f (p ++ x :: y :: q) data_fields []
        = decode_fields unpack_f (p ++ x' :: y' :: q) data_fields []).
Proof.
  intros unpack_f. split; [reflexivity|]. split; [reflexivity|].
  split; [|split; [|split]].
  - intros f d v d' Hf H.
    rewrite (decode_field_advances unpack_f _ _ _ _ H).
    cbn [data_fields In] in Hf.
    repeat (destruct Hf as [<- | Hf]; [reflexivity|]). contradiction.
  - apply decode_data_fields_block.
  - intros regs regs' i Hregs Hregs' Hi Hi' E.
    unfold u32_at, reg in *.
    pose proof (proj1 (Forall_forall _ _) Hregs) as Hin.
    pose proof (proj1 (Forall_forall _ _) Hregs') as Hin'.
    apply u32_of_injective; try exact E;
      first [ apply Hin; apply nth_In; lia
            | apply Hin'; apply nth_In; lia ].
  - apply decode_fields_ignores_registers_6_7.
Qed.

Lemma live_snapshot_layout_witness :
  decode_fields unpack_f_upper
    ([1; 2; 3; 4; 5; 6] ++ 7 :: 8 :: [9; 10; 11; 12; 13; 14; 15; 16; 17; 18;
                                     19; 20; 21; 22; 23; 24])
    data_fields []
  = decode_fields unpack_f_upper
      ([1; 2; 3; 4; 5; 6] ++ 65535 :: 0 :: [9; 10; 11; 12; 13; 14; 15; 16;
                                           17; 18; 19; 20; 21; 22; 23; 24])
      data_fields [] /\
  dict_get "time_since_boot"
    match decode_fields unpack_f_upper
            [ 0; 0; 0; 0; 0; 0; 0; 0; 0; 0; 0; 0; 0x0001; 0x0E10; 0; 0; 0; 0;
              0; 0; 0; 0; 0; 0 ] data_fields [] with
    | Some data => data
    | None => []
    end
  = Some (PyInt 0x00010E10) /\
  (reg [0x0001; 0x0E10; 5] 0 = reg [0x0001; 0x0E10; 9] 0
   /\ reg [0x0001; 0x0E10; 5] 1 = reg [0x0001; 0x0E10; 9] 1).
Proof.
  destruct (live_snapshot_layout unpack_f_upper)
    as (_ & _ & _ & Hdecode & Hinj & Hskip).
  split; [|split].
  - apply Hskip; [reflexivity | lia | lia | lia | lia].
  - rewrite Hdecode.
    + reflexivity.
    + repeat (apply Forall_cons; [unfold is_register; lia|]).
      apply Forall_nil.
    + cbn. lia.
  - apply Hinj.
    + repeat (apply Forall_cons; [unfold is_register; lia|]).
      apply Forall_nil.
    + repeat (apply Forall_cons; [unfold is_register; lia|]).
      apply Forall_nil.
    + cbn. lia.
    + cbn. lia.
    + reflexivity.
Defined.
